(** * Physico: the simulation core of [PhysicsEngine]

    A shallow embedding of the physics component of VSPaone/physico
    (the React component [PhysicsEngine]): body creation, the per-body
    integrator [updateObject], the pairwise detector [detectCollisions],
    the impulse resolver [handleCollisionResponse], the spawning rule
    [reproduceObject] and one run of the animation callback [animate].

    JavaScript numbers are IEEE 754 binary64 values.  The functions are
    written once, over an interface of the arithmetic the source uses,
    and read at two instances: primitive binary64 floats, which compute
    and have NaN and the infinities, and the real numbers, the idealised
    arithmetic in which the algebraic laws of the engine are stated. *)

From Stdlib Require Import ZArith QArith Bool List String Lia.
From Stdlib Require Import Reals Qreals Lra.
From Stdlib Require Import Floats.
Import ListNotations.

Set Implicit Arguments.
Close Scope Q_scope.
Close Scope R_scope.

(** ** The arithmetic of the source *)

Declare Scope js_scope.
Delimit Scope js_scope with js.

(** What the engine asks of a number: literals, the four operations,
    unary minus, [Math.sqrt], [Math.min], [Math.max] and the two
    comparisons [<] and [<=] (the source's [a > b] is [b < a] and
    [a >= b] is [b <= a]). *)
Class JsNumber (T : Type) : Type := {
  lit : Q -> T;
  num_add : T -> T -> T;
  num_sub : T -> T -> T;
  num_mul : T -> T -> T;
  num_div : T -> T -> T;
  num_neg : T -> T;
  Math_sqrt : T -> T;
  Math_min : T -> T -> T;
  Math_max : T -> T -> T;
  num_lt : T -> T -> bool;
  num_le : T -> T -> bool
}.

Notation "a + b" := (num_add a b) : js_scope.
Notation "a - b" := (num_sub a b) : js_scope.
Notation "a * b" := (num_mul a b) : js_scope.
Notation "a / b" := (num_div a b) : js_scope.
Notation "- a" := (num_neg a) : js_scope.
Notation "a <? b" := (num_lt a b) : js_scope.
Notation "a <=? b" := (num_le a b) : js_scope.
Notation "a >? b" := (num_lt b a) : js_scope.
Notation "a >=? b" := (num_le b a) : js_scope.
Notation "# q" := (lit q%Q) (at level 1, format "# q") : js_scope.

(** *** Binary64 *)

Module Binary64.

(** A decimal literal denotes the double nearest to it; numerator and
    denominator of the literals of the source are small integers, so
    one correctly rounded division yields that double. *)
Definition of_Z (z : Z) : float :=
  match z with
  | Z0 => PrimFloat.zero
  | Zpos _ => PrimFloat.of_uint63 (Uint63.of_Z z)
  | Zneg p => PrimFloat.opp (PrimFloat.of_uint63 (Uint63.of_Z (Zpos p)))
  end.

Definition of_Q (q : Q) : float :=
  PrimFloat.div (of_Z (Qnum q)) (of_Z (Zpos (Qden q))).

(** [Math.max] and [Math.min]: NaN when either argument is NaN, and
    [+0] counts as larger than [-0]. *)
Definition max (a b : float) : float :=
  if PrimFloat.is_nan a || PrimFloat.is_nan b then PrimFloat.nan
  else if PrimFloat.ltb a b then b
  else if PrimFloat.ltb b a then a
  else if PrimFloat.get_sign a then b else a.

Definition min (a b : float) : float :=
  if PrimFloat.is_nan a || PrimFloat.is_nan b then PrimFloat.nan
  else if PrimFloat.ltb a b then a
  else if PrimFloat.ltb b a then b
  else if PrimFloat.get_sign a then a else b.

(** Two values of the specification of binary64 that agree up to the
    sign. *)
Definition mirrored (u v : spec_float) : Prop := u = v \/ u = SFopp v.

End Binary64.

#[export] Instance float_number : JsNumber float := {|
  lit := Binary64.of_Q;
  num_add := PrimFloat.add;
  num_sub := PrimFloat.sub;
  num_mul := PrimFloat.mul;
  num_div := PrimFloat.div;
  num_neg := PrimFloat.opp;
  Math_sqrt := PrimFloat.sqrt;
  Math_min := Binary64.min;
  Math_max := Binary64.max;
  num_lt := PrimFloat.ltb;
  num_le := PrimFloat.leb
|}.

(** *** Real numbers *)

Module Exact.

Definition ltb (a b : R) : bool := if Rlt_dec a b then true else false.
Definition leb (a b : R) : bool := if Rle_dec a b then true else false.

End Exact.

#[export] Instance real_number : JsNumber R := {|
  lit := Q2R;
  num_add := Rplus;
  num_sub := Rminus;
  num_mul := Rmult;
  num_div := Rdiv;
  num_neg := Ropp;
  Math_sqrt := R_sqrt.sqrt;
  Math_min := Rmin;
  Math_max := Rmax;
  num_lt := Exact.ltb;
  num_le := Exact.leb
|}.

(** ** Promises *)

(** The outcome of an awaited promise. *)
Inductive Settled (A : Type) : Type :=
| Fulfilled (value : A)
| Rejected.
Arguments Fulfilled {A} value.
Arguments Rejected {A}.

(** [Promise.all]: fulfilled with all the values when every promise is
    fulfilled, rejected as soon as one is. *)
Fixpoint Promise_all {A : Type} (ps : list (Settled A)) : Settled (list A) :=
  match ps with
  | [] => Fulfilled []
  | Rejected :: _ => Rejected
  | Fulfilled a :: ps' =>
      match Promise_all ps' with
      | Fulfilled l => Fulfilled (a :: l)
      | Rejected => Rejected
      end
  end.

(** ** Exceptions *)

(** The outcome of a call that may throw. *)
Inductive Outcome (A : Type) : Type :=
| Returned (value : A)
| Threw.
Arguments Returned {A} value.
Arguments Threw {A}.

(** ** The engine *)

(** A loaded [Image], named by the [src] it was loaded from. *)
Definition Image : Type := string.

Section Engine.

Context {T : Type} `{JsNumber T}.
Local Open Scope js_scope.

(** The objects of the simulation.  [sprite] is [undefined] ([None])
    when [userImages] is empty, and [reproductionChance] is
    [undefined] on an object literal that does not set it. *)
Record Body : Type := mkBody {
  x : T;
  y : T;
  width : T;
  height : T;
  sprite : option Image;
  velocityX : T;
  velocityY : T;
  angle : T;
  angularVelocity : T;
  scale : T;
  mass : T;
  reproductionChance : option T
}.

Definition set_velocity (o : Body) (vx vy : T) : Body :=
  mkBody (x o) (y o) (width o) (height o) (sprite o) vx vy
         (angle o) (angularVelocity o) (scale o) (mass o)
         (reproductionChance o).

(** [detectCollisions] *)
Definition detectCollisions (obj1 obj2 : Body) : bool :=
  let distX := x obj1 - x obj2 in
  let distY := y obj1 - y obj2 in
  let distance := Math_sqrt (distX * distX + distY * distY) in
  distance <? (width obj1 + width obj2) / #2.

(** The quantities [handleCollisionResponse] computes before its test.
    [v ** 2] is read as [v * v]. *)
Definition vCollision (obj1 obj2 : Body) : T * T :=
  (x obj2 - x obj1, y obj2 - y obj1).

Definition collisionDistance (obj1 obj2 : Body) : T :=
  let v := vCollision obj1 obj2 in
  Math_sqrt (fst v * fst v + snd v * snd v).

Definition vCollisionNorm (obj1 obj2 : Body) : T * T :=
  let v := vCollision obj1 obj2 in
  let distance := collisionDistance obj1 obj2 in
  (fst v / distance, snd v / distance).

Definition vRelativeVelocity (obj1 obj2 : Body) : T * T :=
  (velocityX obj1 - velocityX obj2, velocityY obj1 - velocityY obj2).

Definition speed (obj1 obj2 : Body) : T :=
  let n := vCollisionNorm obj1 obj2 in
  let r := vRelativeVelocity obj1 obj2 in
  fst r * fst n + snd r * snd n.

(** [handleCollisionResponse] writes the velocities of both objects in
    place; the embedding returns the two objects as they are after the
    call. *)
Definition handleCollisionResponse (obj1 obj2 : Body) : Body * Body :=
  let n := vCollisionNorm obj1 obj2 in
  let speed := speed obj1 obj2 in
  if speed <? #0 then (obj1, obj2)
  else
    let impulse := (#2 * speed) / (mass obj1 + mass obj2) in
    let vx1 := velocityX obj1 - impulse * mass obj2 * fst n in
    let vy1 := velocityY obj1 - impulse * mass obj2 * snd n in
    let vx2 := velocityX obj2 + impulse * mass obj1 * fst n in
    let vy2 := velocityY obj2 + impulse * mass obj1 * snd n in
    (set_velocity obj1 vx1 vy1, set_velocity obj2 vx2 vy2).

(** *** The component: props and host *)

(** The props of [PhysicsEngine]. *)
Record Props : Type := mkProps {
  gravity : T;
  friction : T;
  bounceFriction : T;
  drag : T;
  maxObjects : nat;
  angularVelocityFactor : T;
  objectCount : nat;
  userImages : list string
}.

Definition defaultProps : Props :=
  mkProps #0.2 #0.99 #0.7 #0.99 20 #0.05 5
          ["https://via.placeholder.com/50"%string].

(** What the browser supplies: the window size, the values successive
    calls of [Math.random] return, and whether the image at a given
    [src] loads ([onload]) or not ([onerror]). *)
Record Host : Type := mkHost {
  innerWidth : T;
  innerHeight : T;
  random_values : nat -> T;
  loads : string -> bool
}.

Variable props : Props.
Variable host : Host.

(** Computations that call [Math.random]: the state is the number of
    values drawn so far. *)
Definition Rand (A : Type) : Type := nat -> A * nat.

Definition ret {A : Type} (a : A) : Rand A := fun n => (a, n).

Definition bind {A B : Type} (m : Rand A) (k : A -> Rand B) : Rand B :=
  fun n => let (a, n') := m n in k a n'.

Notation "v <- m ;; k" := (bind m (fun v => k))
  (at level 61, m at next level, right associativity).

Definition Math_random : Rand T := fun n => (random_values host n, S n).

(** [randomBetween] *)
Definition randomBetween (min max : T) : Rand T :=
  r <- Math_random ;;
  ret (r * (max - min) + min).

(** *** Loading the sprites *)

(** [loadImage]: resolves with the image on [onload], rejects on
    [onerror]. *)
Definition loadImage (src : string) : Settled Image :=
  if loads host src then Fulfilled src else Rejected.

(** *** [createObjects] *)

(** One turn of the loop of [createObjects]: the object pushed at
    index [i]. *)
Definition createObject (images : list Image) (i : nat) : Rand Body :=
  let img := nth_error images (i mod List.length images) in
  px <- randomBetween #50 (innerWidth host - #50) ;;
  py <- randomBetween #50 (innerHeight host - #50) ;;
  w <- randomBetween #30 #50 ;;
  h <- randomBetween #30 #50 ;;
  vx <- randomBetween (- #5) #5 ;;
  vy <- randomBetween (- #5) #5 ;;
  a <- randomBetween #0 #360 ;;
  av <- randomBetween (- angularVelocityFactor props)
                      (angularVelocityFactor props) ;;
  ret (mkBody px py w h img vx vy a av #1 #1 (Some #0.01)).

(** The loop [for (let i = 0; i < objectCount; i++)], with [n] turns
    left from index [i]. *)
Fixpoint createLoop (images : list Image) (n i : nat) (objs : list Body)
  : Rand (list Body) :=
  match n with
  | O => ret objs
  | S n' =>
      o <- createObject images i ;;
      createLoop images n' (S i) (objs ++ [o])
  end.

Definition createObjects : Rand (Settled (list Body)) :=
  match Promise_all (map loadImage (userImages props)) with
  | Rejected => ret Rejected
  | Fulfilled images =>
      objs <- createLoop images (objectCount props) 0 [] ;;
      ret (Fulfilled objs)
  end.

(** *** [updateObject] *)

(** The parameters [width] and [height] of the source are [width_] and
    [height_] here, the plain names being those of the fields.  The
    object is mutated in place; the embedding returns it as it is after
    the call. *)
Definition updateObject (obj : Body) (width_ height_ : T) : Body :=
  let vy := velocityY obj + gravity props in
  let vx := velocityX obj * drag props in
  let vy := vy * drag props in
  let px := x obj + vx in
  let py := y obj + vy in
  let vx :=
    if (px + width obj / #2 >? width_) || (px - width obj / #2 <? #0)
    then - vx * bounceFriction props else vx in
  let vy :=
    if (py + height obj / #2 >? height_) || (py - height obj / #2 <? #0)
    then - vy * bounceFriction props else vy in
  let px := Math_min (Math_max (width obj / #2) px) (width_ - width obj / #2) in
  let py := Math_min (Math_max (height obj / #2) py) (height_ - height obj / #2) in
  let a := angle obj + angularVelocity obj in
  let s := if scale obj >=? #1.5 then #1 else scale obj in
  let s := s + #0.01 in
  mkBody px py (width obj) (height obj) (sprite obj) vx vy a
         (angularVelocity obj) s (mass obj) (reproductionChance obj).

(** *** [reproduceObject] *)

(** [Math.random() < obj.reproductionChance]: a missing field reads as
    [undefined], which compares as NaN, so the test is false. *)
Definition below_chance (r : T) (chance : option T) : bool :=
  match chance with
  | Some c => r <? c
  | None => false
  end.

(** [objects] is the state of the component as the closure sees it.
    The object literal of the source has no [reproductionChance]. *)
Definition reproduceObject (objects : list Body) (obj obj2 : Body)
  : Rand (option Body) :=
  r <- Math_random ;;
  if below_chance r (reproductionChance obj)
     && (List.length objects <? maxObjects props)%nat
  then
    vx <- randomBetween (- #5) #5 ;;
    vy <- randomBetween (- #5) #5 ;;
    a <- randomBetween #0 #360 ;;
    av <- randomBetween (- angularVelocityFactor props)
                        (angularVelocityFactor props) ;;
    ret (Some (mkBody ((x obj + x obj2) / #2)
                      ((y obj + y obj2) / #2)
                      ((width obj + width obj2) / #2)
                      ((height obj + height obj2) / #2)
                      (sprite obj) vx vy a av #1 #1 None))
  else ret None.

(** *** [animate] *)

(** What one run of [animate] works on.  [bodies] is the array
    [objects]: its elements are mutated in place, and [newObjects],
    a shallow copy, shares them.  [pushed] holds the objects pushed
    on [newObjects] after the copy. *)
Record Frame : Type := mkFrame {
  bodies : list Body;
  pushed : list Body
}.

(** [l[i] = o] for an index inside the array. *)
Fixpoint store (i : nat) (o : Body) (l : list Body) : list Body :=
  match l, i with
  | [], _ => []
  | _ :: l', O => o :: l'
  | b :: l', S i' => b :: store i' o l'
  end.

(** The inner loop [for (let i = idx + 1; i < objects.length; i++)],
    with [n] turns left from index [i]. *)
Fixpoint collideLoop (n idx i : nat) (f : Frame) : Rand Frame :=
  match n with
  | O => ret f
  | S n' =>
      match nth_error (bodies f) idx, nth_error (bodies f) i with
      | Some obj, Some obj2 =>
          if detectCollisions obj obj2 then
            let (obj', obj2') := handleCollisionResponse obj obj2 in
            let objects := store i obj2' (store idx obj' (bodies f)) in
            newObject <- reproduceObject objects obj' obj2' ;;
            match newObject with
            | Some o => collideLoop n' idx (S i) (mkFrame objects (pushed f ++ [o]))
            | None => collideLoop n' idx (S i) (mkFrame objects (pushed f))
            end
          else collideLoop n' idx (S i) f
      | _, _ => ret f
      end
  end.

(** The callback of [objects.forEach] at index [idx], up to the
    drawing calls: [updateObject] and the inner loop. *)
Definition moveAndCollide (idx : nat) (f : Frame) : Rand Frame :=
  match nth_error (bodies f) idx with
  | None => ret f
  | Some obj =>
      let obj' := updateObject obj (innerWidth host) (innerHeight host) in
      let objects := store idx obj' (bodies f) in
      collideLoop (List.length objects - S idx) idx (S idx)
                  (mkFrame objects (pushed f))
  end.

(** [ctx.drawImage(obj.sprite, ...)] throws a TypeError when the sprite
    is [undefined].  The other calls on the context ([save],
    [translate], [rotate], [scale], [restore]) write to the canvas
    only. *)
Definition drawImage (image : option Image) : Outcome unit :=
  match image with
  | Some _ => Returned tt
  | None => Threw
  end.

(** The drawing calls of the callback, on the object at [idx] as the
    inner loop left it. *)
Definition draw (idx : nat) (f : Frame) : Outcome unit :=
  match nth_error (bodies f) idx with
  | Some obj => drawImage (sprite obj)
  | None => Returned tt
  end.

(** The callback of [objects.forEach] at index [idx]. *)
Definition visit (idx : nat) (f : Frame) : Rand (Outcome Frame) :=
  f' <- moveAndCollide idx f ;;
  match draw idx f' with
  | Returned _ => ret (Returned f')
  | Threw => ret Threw
  end.

(** [objects.forEach], with [n] elements left from index [idx]; an
    exception thrown by the callback ends it. *)
Fixpoint forEach (n idx : nat) (f : Frame) : Rand (Outcome Frame) :=
  match n with
  | O => ret (Returned f)
  | S n' =>
      r <- visit idx f ;;
      match r with
      | Returned f' => forEach n' (S idx) f'
      | Threw => ret Threw
      end
  end.

(** One run of [animate] on the state [objects]: the array handed to
    [setObjects], or the exception that ends the run before
    [setObjects] and [requestAnimationFrame] are reached. *)
Definition animate (objects : list Body) : Rand (Outcome (list Body)) :=
  r <- forEach (List.length objects) 0 (mkFrame objects []) ;;
  match r with
  | Returned f => ret (Returned (bodies f ++ pushed f))
  | Threw => ret Threw
  end.

End Engine.

Arguments Body T : clear implicits.

Arguments Props T : clear implicits.
Arguments Host T : clear implicits.
Arguments Frame T : clear implicits.

Unset Implicit Arguments.

(** ** Sample data *)

Module Sample.

Local Open Scope float_scope.

(** A square body as [createObjects] makes them, at a chosen place
    and with a chosen velocity. *)
Definition body (px py size vx vy : float) : Body float :=
  mkBody px py size size (Some "a.png"%string) vx vy 0 0 1 1 (Some (lit 0.01)).

(** Scenario A: two bodies of mass 1 on one horizontal line, moving
    towards each other. *)
Definition left_body : Body float := body 100 100 30 5 0.
Definition right_body : Body float := body 120 100 30 (-5) 0.

(** The same two places, the bodies moving apart. *)
Definition left_leaving : Body float := body 100 100 30 (-5) 0.
Definition right_leaving : Body float := body 120 100 30 5 0.

(** Two bodies with the same centre. *)
Definition stacked_a : Body float := body 100 100 30 1 0.
Definition stacked_b : Body float := body 100 100 30 0 2.

(** A body whose scale has grown to 1.49. *)
Definition grown : Body float :=
  mkBody 100 100 30 30 (Some "a.png"%string) 0 0 0 0 (lit 1.49) 1 (Some (lit 0.01)).

(** Three overlapping bodies at rest. *)
Definition crowd : list (Body float) :=
  [body 100 100 30 0 0; body 105 100 30 0 0; body 110 100 30 0 0].

(** A browser with an 800 by 600 window, in which [Math.random] always
    returns 0 and every image loads but ["broken.png"]. *)
Definition host : Host float :=
  mkHost 800 600 (fun _ => 0) (fun src => negb (String.eqb src "broken.png")).

(** The default props with [maxObjects = 4] and [objectCount = 3]. *)
Definition props4 : Props float :=
  mkProps (lit 0.2) (lit 0.99) (lit 0.7) (lit 0.99) 4 (lit 0.05) 3
          ["a.png"%string].

(** The default props with two sprites, the second of which fails to
    load. *)
Definition props_broken : Props float :=
  mkProps (lit 0.2) (lit 0.99) (lit 0.7) (lit 0.99) 20 (lit 0.05) 5
          ["a.png"%string; "broken.png"%string].

(** Scenario A over the reals. *)
Definition rbody (px py size vx vy : R) : Body R :=
  mkBody px py size size (Some "a.png"%string) vx vy 0%R 0%R 1%R 1%R
         (Some (lit 0.01)).

Definition rleft : Body R := rbody 100 100 30 5 0.
Definition rright : Body R := rbody 120 100 30 (-5) 0.

Definition rprops : Props R := defaultProps.

End Sample.

(** ** Observations on bodies and props *)

Section Observations.

Context {T : Type} `{JsNumber T}.
Local Open Scope js_scope.

(** [o'] has the fields of [o] that no function of the engine assigns:
    size, sprite, angular velocity, mass and reproduction chance. *)
Definition same_make (o o' : Body T) : Prop :=
  width o' = width o /\ height o' = height o /\ sprite o' = sprite o /\
  angularVelocity o' = angularVelocity o /\ mass o' = mass o /\
  reproductionChance o' = reproductionChance o.

(** The kinetic energy [m * |v|^2 / 2] of a body. *)
Definition kineticEnergy (o : Body T) : T :=
  mass o * (velocityX o * velocityX o + velocityY o * velocityY o) / #2.

(** The props with another value of [friction]. *)
Definition with_friction (f : T) (p : Props T) : Props T :=
  mkProps (gravity p) f (bounceFriction p) (drag p) (maxObjects p)
          (angularVelocityFactor p) (objectCount p) (userImages p).

(** A body as it comes out of [createObjects]: scale 1, mass 1 and a
    reproduction chance of 0.01. *)
Definition fresh (o : Body T) : Prop :=
  scale o = #1 /\ mass o = #1 /\ reproductionChance o = Some #0.01.

(** A body as it comes out of [reproduceObject]: scale 1, mass 1 and
    no reproduction chance. *)
Definition spawned (o : Body T) : Prop :=
  scale o = #1 /\ mass o = #1 /\ reproductionChance o = None.

(** The invariant of a run of [animate] that started from [objects]:
    the state still holds the same bodies, each with its make, and
    everything pushed is a spawned body. *)
Definition run_invariant (objects : list (Body T)) (f : Frame T) : Prop :=
  Forall2 same_make objects (bodies f) /\ Forall spawned (pushed f).

End Observations.

(** ** More sample data *)

Module Scene.

(** A browser over the reals: an 800 by 600 window, [Math.random]
    always returning 1/2, every image loading. *)
Definition rhost : Host R :=
  mkHost 800%R 600%R (fun _ => (1 / 2)%R) (fun _ => true).

(** Two bodies of masses 1 and 3 that approach each other slantwise. *)
Definition light : Body R :=
  mkBody 100%R 100%R 30%R 30%R None 4%R 1%R 0%R 0%R 1%R 1%R None.
Definition heavy : Body R :=
  mkBody 103%R 104%R 30%R 30%R None (-2)%R 0%R 0%R 0%R 1%R 3%R None.

(** A body in the middle of the window, and one about to sink through
    the floor. *)
Definition floating : Body R :=
  mkBody 400%R 300%R 30%R 30%R None 2%R 1%R 0%R 0%R 1%R 1%R None.
Definition sinking : Body R :=
  mkBody 400%R 580%R 30%R 30%R None 2%R 10%R 0%R 0%R 1%R 1%R None.

(** Props with three objects and two sprites, all of which load in
    [Sample.host]. *)
Definition props_two_sprites : Props float :=
  mkProps (lit 0.2) (lit 0.99) (lit 0.7) (lit 0.99) 20 (lit 0.05) 3
          ["a.png"%string; "b.png"%string].

(** The crowd of three under a cap of 3. *)
Definition props3 : Props float :=
  mkProps (lit 0.2) (lit 0.99) (lit 0.7) (lit 0.99) 3 (lit 0.05) 3
          ["a.png"%string].

Local Open Scope float_scope.

(** Props without gravity and without drag, and two bodies the first
    of which reaches the centre of the second in one step. *)
Definition props_still : Props float :=
  mkProps (lit 0) (lit 0.99) (lit 0.7) (lit 1) 20 (lit 0.05) 2
          ["a.png"%string].

Definition meeting : list (Body float) :=
  [Sample.body 99 100 30 1 0; Sample.body 100 100 30 0 2].


(** A body of the size of three units of the last place of binary64,
    in a viewport of the same size. *)
Definition speck : Body float :=
  mkBody 0x3p-1074 0x3p-1074 0x3p-1074 0x3p-1074 (Some "a.png"%string)
         0 0 0 0 1 1 (Some (lit 0.01)).

End Scene.

(** ** Facts about the two arithmetics *)

(** *** Literals and comparisons over the reals *)

Lemma lit_0 : @lit R _ 0 = 0%R.
Proof. unfold lit; simpl. unfold Q2R; simpl. lra. Qed.

Lemma lit_1 : @lit R _ 1 = 1%R.
Proof. unfold lit; simpl. unfold Q2R; simpl. lra. Qed.

Lemma lit_2 : @lit R _ 2 = 2%R.
Proof. unfold lit; simpl. unfold Q2R; simpl. lra. Qed.

Lemma lit_1_5 : @lit R _ 1.5 = 1.5%R.
Proof. unfold lit; simpl. unfold Q2R; simpl. lra. Qed.

Lemma lit_0_01 : @lit R _ 0.01 = 0.01%R.
Proof. unfold lit; simpl. unfold Q2R; simpl. lra. Qed.

Lemma Exact_ltb_true (a b : R) : Exact.ltb a b = true <-> (a < b)%R.
Proof.
  unfold Exact.ltb. destruct (Rlt_dec a b); split; intros;
    congruence || assumption.
Qed.

Lemma Exact_leb_true (a b : R) : Exact.leb a b = true <-> (a <= b)%R.
Proof.
  unfold Exact.leb. destruct (Rle_dec a b); split; intros;
    congruence || assumption.
Qed.

Lemma Exact_leb_false (a b : R) : Exact.leb a b = false <-> (b < a)%R.
Proof.
  unfold Exact.leb. destruct (Rle_dec a b); split; intros;
    try congruence; lra.
Qed.

(** *** Binary64, from its specification *)

Section SpecFacts.

Variables prec emax : Z.

Lemma SFadd_comm (u v : spec_float) :
  SFadd prec emax u v = SFadd prec emax v u.
Proof.
  destruct u as [su|su| |su mu eu], v as [sv|sv| |sv mv ev]; simpl;
    try reflexivity; try (destruct su, sv; reflexivity).
  rewrite (Z.min_comm eu ev). f_equal. apply Z.add_comm.
Qed.

(** Rounding to nearest even does not look at the sign. *)
Lemma binary_round_aux_negb (s : bool) (m e : Z) (l : location) :
  binary_round_aux prec emax (negb s) m e l
  = SFopp (binary_round_aux prec emax s m e l).
Proof.
  unfold binary_round_aux.
  destruct (shr_fexp prec emax m e l) as [mrs e1].
  destruct (shr_fexp prec emax _ e1 loc_Exact) as [mrs' e2].
  destruct (shr_m mrs') as [|p|p]; try reflexivity.
  destruct (Z.leb e2 (emax - prec)); reflexivity.
Qed.

Lemma binary_round_negb (s : bool) (m : positive) (e : Z) :
  binary_round prec emax (negb s) m e = SFopp (binary_round prec emax s m e).
Proof.
  unfold binary_round. destruct (shl_align m e _) as [mz ez].
  apply binary_round_aux_negb.
Qed.

Lemma binary_normalize_opp (m e : Z) :
  Binary64.mirrored (binary_normalize prec emax (- m) e false)
                    (binary_normalize prec emax m e false).
Proof.
  destruct m as [|p|p]; simpl.
  - left; reflexivity.
  - right. apply (binary_round_negb false).
  - right. rewrite (binary_round_negb false).
    destruct (binary_round prec emax false p e) as [s|s| |s m' e']; simpl;
      rewrite ?negb_involutive; reflexivity.
Qed.

(** [u - v] and [v - u] agree up to the sign. *)
Lemma SFsub_swap (u v : spec_float) :
  Binary64.mirrored (SFsub prec emax u v) (SFsub prec emax v u).
Proof.
  destruct u as [su|su| |su mu eu], v as [sv|sv| |sv mv ev]; simpl;
    try (left; reflexivity);
    try (destruct su, sv; (left; reflexivity) || (right; reflexivity)).
  rewrite (Z.min_comm ev eu).
  match goal with
  | |- Binary64.mirrored (binary_normalize _ _ (?p - ?q) _ _) _ =>
      replace (p - q)%Z with (- (q - p))%Z by ring
  end.
  apply binary_normalize_opp.
Qed.

Lemma SFmul_mirrored (u v : spec_float) :
  Binary64.mirrored u v -> SFmul prec emax u u = SFmul prec emax v v.
Proof.
  intros [->| ->]; [reflexivity|].
  destruct v as [s|s| |s m e]; simpl; try reflexivity;
    destruct s; reflexivity.
Qed.

(** Comparing in the other order gives the opposite answer. *)
Lemma SFcompare_swap (u v : spec_float) :
  SFcompare v u = option_map CompOpp (SFcompare u v).
Proof.
  destruct u as [su|su| |su mu eu], v as [sv|sv| |sv mv ev]; simpl;
    try reflexivity; try (destruct su, sv; reflexivity);
    try (destruct su; reflexivity); try (destruct sv; reflexivity).
  destruct su, sv; try reflexivity;
    rewrite (Z.compare_antisym eu ev);
    destruct (Z.compare eu ev); simpl; try reflexivity;
    rewrite (Pos.compare_cont_antisym mu mv Eq); simpl;
    try rewrite CompOpp_involutive; reflexivity.
Qed.

End SpecFacts.

Section Binary64Facts.

Local Open Scope float_scope.

Lemma float_add_comm (a b : float) : a + b = b + a.
Proof. apply Prim2SF_inj. rewrite !add_spec. apply SFadd_comm. Qed.

Lemma float_square_of_difference (a b : float) :
  (a - b) * (a - b) = (b - a) * (b - a).
Proof.
  apply Prim2SF_inj. rewrite !mul_spec, !sub_spec.
  apply SFmul_mirrored, SFsub_swap.
Qed.

Lemma Prim2SF_nan : Prim2SF nan = S754_nan.
Proof. reflexivity. Qed.

Lemma is_nan_spec (a : float) : is_nan a = true <-> Prim2SF a = S754_nan.
Proof.
  unfold is_nan. rewrite eqb_spec. unfold SFeqb.
  destruct (Prim2SF a) as [s|s| |s m e] eqn:E; simpl.
  - split; discriminate.
  - destruct s; simpl; split; discriminate.
  - split; reflexivity.
  - destruct s; rewrite Z.compare_refl, Pos.compare_cont_refl; simpl;
      split; discriminate.
Qed.

Lemma mul_nan_r (a : float) : a * nan = nan.
Proof.
  apply Prim2SF_inj. rewrite mul_spec, Prim2SF_nan.
  destruct (Prim2SF a); reflexivity.
Qed.

Lemma mul_nan_l (a : float) : nan * a = nan.
Proof. apply Prim2SF_inj. rewrite mul_spec, Prim2SF_nan. reflexivity. Qed.

Lemma div_nan_l (a : float) : nan / a = nan.
Proof. apply Prim2SF_inj. rewrite div_spec, Prim2SF_nan. reflexivity. Qed.

Lemma sub_nan_r (a : float) : a - nan = nan.
Proof.
  apply Prim2SF_inj. rewrite sub_spec, Prim2SF_nan.
  destruct (Prim2SF a); reflexivity.
Qed.

Lemma add_nan_r (a : float) : a + nan = nan.
Proof.
  apply Prim2SF_inj. rewrite add_spec, Prim2SF_nan.
  destruct (Prim2SF a); reflexivity.
Qed.

(** A finite float is a zero or has a mantissa and an exponent. *)
Lemma is_finite_spec (a : float) :
  is_finite a = true ->
  (exists s, Prim2SF a = S754_zero s) \/
  (exists s m e, Prim2SF a = S754_finite s m e).
Proof.
  unfold is_finite. intros Hf. apply negb_true_iff, orb_false_iff in Hf.
  destruct Hf as [Hnan Hinf].
  destruct (Prim2SF a) as [s|s| |s m e] eqn:E.
  - left; eauto.
  - exfalso. unfold is_infinity in Hinf.
    rewrite eqb_spec, abs_spec, E in Hinf. discriminate Hinf.
  - exfalso. apply is_nan_spec in E. congruence.
  - right; eauto.
Qed.

Lemma sub_diag (a : float) : is_finite a = true -> a - a = 0.
Proof.
  intros Hf. apply Prim2SF_inj. rewrite sub_spec.
  change (Prim2SF 0) with (S754_zero false).
  destruct (is_finite_spec a Hf) as [[s E]|[s [m [e E]]]]; rewrite E; simpl.
  - destruct s; reflexivity.
  - unfold SF64sub; simpl. rewrite Z.sub_diag. reflexivity.
Qed.

(** Two floats that are not NaN compare. *)
Lemma compare_not_nan (a b : float) :
  is_nan a = false -> is_nan b = false ->
  exists c, SFcompare (Prim2SF a) (Prim2SF b) = Some c.
Proof.
  intros Ha Hb.
  assert (Ha' : Prim2SF a <> S754_nan)
    by (intros E; apply is_nan_spec in E; congruence).
  assert (Hb' : Prim2SF b <> S754_nan)
    by (intros E; apply is_nan_spec in E; congruence).
  destruct (Prim2SF a) as [sa|sa| |sa ma ea], (Prim2SF b) as [sb|sb| |sb mb eb];
    simpl; try congruence; eauto.
Qed.

Lemma ltb_leb (a b : float) : (a <? b) = true -> (a <=? b) = true.
Proof.
  rewrite ltb_spec, leb_spec. unfold SFltb, SFleb.
  destruct (SFcompare _ _) as [[| |]|]; congruence.
Qed.

Lemma not_ltb_leb (a b : float) :
  is_nan a = false -> is_nan b = false ->
  (a <? b) = false -> (b <=? a) = true.
Proof.
  intros Ha Hb. rewrite ltb_spec, leb_spec. unfold SFltb, SFleb.
  rewrite (SFcompare_swap (Prim2SF a) (Prim2SF b)).
  destruct (compare_not_nan a b Ha Hb) as [c Hc]. rewrite Hc.
  destruct c; simpl; congruence.
Qed.

Lemma leb_not_ltb (a b : float) : (a <=? b) = true -> (b <? a) = false.
Proof.
  rewrite ltb_spec, leb_spec. unfold SFltb, SFleb.
  rewrite (SFcompare_swap (Prim2SF a) (Prim2SF b)).
  destruct (SFcompare _ _) as [[| |]|]; simpl; congruence.
Qed.

Lemma leb_refl (a : float) : is_nan a = false -> (a <=? a) = true.
Proof.
  intros Ha. destruct (a <? a) eqn:Hlt.
  - now apply ltb_leb.
  - now apply not_ltb_leb.
Qed.

(** [Math.min(Math.max(lo, v), hi)] on binary64 lies between [lo] and
    [hi] when none of the three is NaN and [lo <= hi]. *)
Lemma clamp_between_binary64 (lo hi v : float) :
  is_nan lo = false -> is_nan hi = false -> is_nan v = false ->
  (lo <=? hi) = true ->
  let r := Binary64.min (Binary64.max lo v) hi in
  (lo <=? r) = true /\ (r <=? hi) = true.
Proof.
  intros Hlo Hhi Hv Hle r. subst r.
  assert (Hmax : is_nan (Binary64.max lo v) = false /\
                 (lo <=? Binary64.max lo v) = true).
  { unfold Binary64.max. rewrite Hlo, Hv. simpl.
    destruct (lo <? v) eqn:H1; [split; [assumption | now apply ltb_leb]|].
    destruct (v <? lo) eqn:H2; [split; [assumption | now apply leb_refl]|].
    destruct (get_sign lo);
      [split; [assumption | now apply not_ltb_leb]
      |split; [assumption | now apply leb_refl]]. }
  destruct Hmax as [Hm Hlm]. unfold Binary64.min. rewrite Hm, Hhi. simpl.
  destruct (Binary64.max lo v <? hi) eqn:H1; [split; [assumption | now apply ltb_leb]|].
  destruct (hi <? Binary64.max lo v) eqn:H2; [split; [assumption | now apply leb_refl]|].
  destruct (get_sign (Binary64.max lo v)).
  - split; [assumption | now apply not_ltb_leb].
  - split; [assumption | now apply leb_refl].
Qed.

End Binary64Facts.

(** ** The collision resolver *)

(** Reading a float as a truth value, to tell two floats apart. *)
Lemma float_neq (test : float -> bool) (f g : float) :
  test f = true -> test g = false -> f <> g.
Proof. intros Hf Hg E. rewrite E in Hf. congruence. Qed.

Section ResolverAnyNumber.

Context {T : Type} `{JsNumber T}.
Local Open Scope js_scope.

(** C2, as amended: when the closing speed, the dot product of
    [a.velocity - b.velocity] with the unit normal from [a] to [b], is
    strictly less than 0, [handleCollisionResponse] does nothing: both
    bodies come back as they were.  This holds in any arithmetic. *)
Theorem separating_pair_untouched (a b : Body T) :
  (speed a b <? #0) = true ->
  handleCollisionResponse a b = (a, b).
Proof.
  intros Hsep. unfold handleCollisionResponse. now rewrite Hsep.
Qed.

End ResolverAnyNumber.

(** Witness of C2 as amended: two bodies moving apart along x, with
    closing speed -10. *)
Lemma separating_pair_untouched_witness :
  handleCollisionResponse Sample.left_leaving Sample.right_leaving
  = (Sample.left_leaving, Sample.right_leaving).
Proof.
  apply (separating_pair_untouched Sample.left_leaving Sample.right_leaving).
  vm_compute. reflexivity.
Defined.

(** C2, as stated, fails: in Scenario A the closing speed is 10, which
    is at least 0, and the resolver rewrites both velocities. *)
Lemma nonnegative_speed_resolved :
  ~ (forall a b : Body float,
        (#0 <=? speed a b)%js = true ->
        handleCollisionResponse a b = (a, b)).
Proof.
  intros Hclaim.
  specialize (Hclaim Sample.left_body Sample.right_body).
  assert (Hspeed : (#0 <=? speed Sample.left_body Sample.right_body)%js = true)
    by (vm_compute; reflexivity).
  specialize (Hclaim Hspeed).
  apply (f_equal (fun r => velocityX (fst r))) in Hclaim.
  revert Hclaim.
  apply (float_neq (fun v => PrimFloat.ltb v 0)).
  - vm_compute. reflexivity.
  - vm_compute. reflexivity.
Qed.

(** C3: two bodies with the same centre.  The distance is 0, the normal
    is [0 / 0], and the test [speed < 0] is false on NaN: all four
    velocity components come back as NaN. *)
Theorem coincident_centres_give_nan :
  let r := handleCollisionResponse Sample.stacked_a Sample.stacked_b in
  x Sample.stacked_a = x Sample.stacked_b /\
  y Sample.stacked_a = y Sample.stacked_b /\
  detectCollisions Sample.stacked_a Sample.stacked_b = true /\
  PrimFloat.is_finite (velocityX Sample.stacked_a) = true /\
  PrimFloat.is_finite (velocityY Sample.stacked_a) = true /\
  PrimFloat.is_finite (velocityX Sample.stacked_b) = true /\
  PrimFloat.is_finite (velocityY Sample.stacked_b) = true /\
  PrimFloat.is_nan (velocityX (fst r)) = true /\
  PrimFloat.is_nan (velocityY (fst r)) = true /\
  PrimFloat.is_nan (velocityX (snd r)) = true /\
  PrimFloat.is_nan (velocityY (snd r)) = true.
Proof. vm_compute. repeat split; reflexivity. Qed.

(** Scenario A on binary64: the velocities are exchanged exactly. *)
Example head_on_swap_binary64 :
  let r := handleCollisionResponse Sample.left_body Sample.right_body in
  velocityX (fst r) = (-5)%float /\ velocityY (fst r) = 0%float /\
  velocityX (snd r) = 5%float /\ velocityY (snd r) = 0%float.
Proof. vm_compute. repeat split; reflexivity. Qed.

Section ResolverBinary64.

Local Open Scope float_scope.

(** C7: on binary64, for every pair of bodies, NaN and infinite fields
    included, [detectCollisions a b] and [detectCollisions b a] are the
    same boolean. *)
Theorem detectCollisions_symmetric (a b : Body float) :
  detectCollisions a b = detectCollisions b a.
Proof.
  unfold detectCollisions.
  cbn [num_sub num_mul num_add num_div num_lt Math_sqrt float_number].
  rewrite (float_square_of_difference (x a) (x b)).
  rewrite (float_square_of_difference (y a) (y b)).
  rewrite (float_add_comm (width a) (width b)).
  reflexivity.
Qed.

Lemma zero_over_zero_distance : 0 / sqrt (0 * 0 + 0 * 0) = nan.
Proof. reflexivity. Qed.

(** X20, the defect behind C3 in general: whenever the centres of the
    two bodies coincide (and are finite), whatever the velocities and
    the masses, [handleCollisionResponse] overwrites all four velocity
    components with NaN. *)
Lemma coincident_centres_poison (a b : Body float) :
  is_finite (x a) = true -> is_finite (y a) = true ->
  x b = x a -> y b = y a ->
  let r := handleCollisionResponse a b in
  velocityX (fst r) = nan /\ velocityY (fst r) = nan /\
  velocityX (snd r) = nan /\ velocityY (snd r) = nan.
Proof.
  intros Hfx Hfy Hx Hy r. subst r.
  unfold handleCollisionResponse, speed, vCollisionNorm, collisionDistance,
    vCollision, vRelativeVelocity.
  cbn [fst snd num_sub num_mul num_add num_div num_lt Math_sqrt float_number].
  rewrite Hx, Hy, (sub_diag _ Hfx), (sub_diag _ Hfy).
  rewrite zero_over_zero_distance.
  rewrite !mul_nan_r, add_nan_r.
  change (nan <? lit 0) with false. cbn iota.
  rewrite !sub_nan_r, !add_nan_r.
  cbn [fst snd set_velocity velocityX velocityY].
  repeat split; reflexivity.
Qed.

End ResolverBinary64.

Section ResolverReal.

Local Open Scope R_scope.

(** On one horizontal line with [a] to the left of [b], the distance is
    the difference of the abscissas and the normal is [(1, 0)]. *)
Lemma horizontal_distance (a b : Body R) :
  y a = y b -> x a < x b -> collisionDistance a b = x b - x a.
Proof.
  intros Hy Hx. unfold collisionDistance, vCollision; simpl.
  rewrite Hy. replace (y b - y b) with 0 by ring.
  rewrite Rmult_0_r, Rplus_0_r.
  apply sqrt_square. lra.
Qed.

Lemma horizontal_normal (a b : Body R) :
  y a = y b -> x a < x b -> vCollisionNorm a b = (1, 0).
Proof.
  intros Hy Hx. unfold vCollisionNorm.
  rewrite (horizontal_distance a b Hy Hx).
  unfold vCollision; simpl. f_equal.
  - field. lra.
  - rewrite Hy. field. lra.
Qed.

(** C6: two bodies of mass 1 with velocities (5,0) and (-5,0) on one
    horizontal line, the first to the left of the second, so that they
    approach head-on along x: [handleCollisionResponse] leaves them with
    velocities (-5,0) and (5,0). *)
Theorem head_on_swap (a b : Body R) :
  mass a = 1 -> mass b = 1 ->
  velocityX a = 5 -> velocityY a = 0 ->
  velocityX b = -5 -> velocityY b = 0 ->
  y a = y b -> x a < x b ->
  let r := handleCollisionResponse a b in
  velocityX (fst r) = -5 /\ velocityY (fst r) = 0 /\
  velocityX (snd r) = 5 /\ velocityY (snd r) = 0.
Proof.
  intros Hma Hmb Hvxa Hvya Hvxb Hvyb Hy Hx r. subst r.
  unfold handleCollisionResponse, speed, vRelativeVelocity.
  rewrite (horizontal_normal a b Hy Hx).
  rewrite lit_0, lit_2, Hma, Hmb, Hvxa, Hvya, Hvxb, Hvyb. simpl.
  destruct (Exact.ltb _ 0) eqn:Hlt.
  - apply Exact_ltb_true in Hlt. lra.
  - simpl. repeat split; field.
Qed.

(** Witness of C6: Scenario A at the abscissas 100 and 120. *)
Lemma head_on_swap_witness :
  velocityX (fst (handleCollisionResponse Sample.rleft Sample.rright)) = -5 /\
  velocityY (fst (handleCollisionResponse Sample.rleft Sample.rright)) = 0 /\
  velocityX (snd (handleCollisionResponse Sample.rleft Sample.rright)) = 5 /\
  velocityY (snd (handleCollisionResponse Sample.rleft Sample.rright)) = 0.
Proof.
  apply (head_on_swap Sample.rleft Sample.rright); simpl; try reflexivity; lra.
Defined.

(** C10: for two bodies of positive mass with distinct centres, the
    total momentum [a.mass * a.velocity + b.mass * b.velocity] is the
    same after [handleCollisionResponse] as before, on both axes, in
    real arithmetic; the masses themselves are not touched. *)
Theorem momentum_conserved (a b : Body R) :
  0 < mass a -> 0 < mass b ->
  (x a <> x b \/ y a <> y b) ->
  let r := handleCollisionResponse a b in
  mass (fst r) = mass a /\ mass (snd r) = mass b /\
  mass (fst r) * velocityX (fst r) + mass (snd r) * velocityX (snd r)
  = mass a * velocityX a + mass b * velocityX b /\
  mass (fst r) * velocityY (fst r) + mass (snd r) * velocityY (snd r)
  = mass a * velocityY a + mass b * velocityY b.
Proof.
  intros Hma Hmb _ r. subst r.
  unfold handleCollisionResponse.
  destruct (num_lt _ _); simpl.
  - repeat split; reflexivity.
  - repeat split; try reflexivity; ring.
Qed.

(** Over the reals a pair with closing speed exactly 0 goes through the
    impulse with an impulse of 0, which changes nothing either. *)
Lemma stationary_pair_untouched_real (a b : Body R) :
  speed a b = 0 -> handleCollisionResponse a b = (a, b).
Proof.
  intros Hzero. unfold handleCollisionResponse. rewrite Hzero, lit_0, lit_2.
  destruct (num_lt 0 0); [reflexivity|].
  destruct a, b; unfold set_velocity; simpl.
  f_equal; f_equal; unfold Rdiv; ring.
Qed.

(** Witness of C10: Scenario A, where the impulse is applied. *)
Lemma momentum_conserved_witness :
  let r := handleCollisionResponse Sample.rleft Sample.rright in
  mass (fst r) = 1 /\ mass (snd r) = 1 /\
  mass (fst r) * velocityX (fst r) + mass (snd r) * velocityX (snd r)
  = 1 * 5 + 1 * -5 /\
  mass (fst r) * velocityY (fst r) + mass (snd r) * velocityY (snd r)
  = 1 * 0 + 1 * 0.
Proof.
  apply (momentum_conserved Sample.rleft Sample.rright); simpl.
  - lra.
  - lra.
  - left. lra.
Defined.

(** [detectCollisions] is symmetric over the reals as well. *)
Lemma detectCollisions_symmetric_real (a b : Body R) :
  detectCollisions a b = detectCollisions b a.
Proof.
  unfold detectCollisions; simpl.
  replace ((x b - x a) * (x b - x a) + (y b - y a) * (y b - y a))
    with ((x a - x b) * (x a - x b) + (y a - y b) * (y a - y b)) by ring.
  replace (width b + width a) with (width a + width b) by ring.
  reflexivity.
Qed.

End ResolverReal.

(** ** The integrator *)

Section IntegratorReal.

Local Open Scope R_scope.

(** [Math.min(Math.max(lo, v), hi)] lies between [lo] and [hi] when the
    interval is not empty. *)
Lemma clamp_between (lo hi v : R) :
  lo <= hi -> lo <= Rmin (Rmax lo v) hi <= hi.
Proof.
  intros Hlh. unfold Rmin, Rmax.
  destruct (Rle_dec lo v); destruct (Rle_dec _ hi); lra.
Qed.

(** X25: in real arithmetic a body no wider and no higher than the
    viewport is, after [updateObject], at a position with [x] in
    [[width/2, viewportWidth - width/2]] and [y] in
    [[height/2, viewportHeight - height/2]], whatever the velocities
    and whether or not a wall bounce reversed them; its size is the
    one it had. *)
Theorem updateObject_within_viewport
  (props : Props R) (obj : Body R) (viewportWidth viewportHeight : R) :
  width obj <= viewportWidth -> height obj <= viewportHeight ->
  let o := updateObject props obj viewportWidth viewportHeight in
  width o = width obj /\ height o = height obj /\
  width o / 2 <= x o <= viewportWidth - width o / 2 /\
  height o / 2 <= y o <= viewportHeight - height o / 2.
Proof.
  intros Hw Hh o. subst o. unfold updateObject.
  rewrite !lit_2. cbn [x y width height num_div num_sub real_number Math_min Math_max].
  split; [reflexivity | split; [reflexivity | split]].
  - apply clamp_between. lra.
  - apply clamp_between. lra.
Qed.

(** Witness of X25: the left body of Scenario A in an 800 by 600
    viewport. *)
Lemma updateObject_within_viewport_witness :
  let o := updateObject Sample.rprops Sample.rleft 800 600 in
  width o = 30 /\ height o = 30 /\
  width o / 2 <= x o <= 800 - width o / 2 /\
  height o / 2 <= y o <= 600 - height o / 2.
Proof.
  apply (updateObject_within_viewport Sample.rprops Sample.rleft 800 600);
    simpl; lra.
Defined.

(** C8, as amended: [updateObject] first resets a scale that is at
    least 1.5 to 1 and then adds 0.01, so the scale after a step is
    1.01 in the first case and the old scale plus 0.01 otherwise, and
    it is always strictly less than 1.51. *)
Theorem scale_sawtooth
  (props : Props R) (obj : Body R) (viewportWidth viewportHeight : R) :
  let s := scale (updateObject props obj viewportWidth viewportHeight) in
  (1.5 <= scale obj -> s = 1 + 0.01) /\
  (scale obj < 1.5 -> s = scale obj + 0.01) /\
  s < 1.51.
Proof.
  intros s. subst s. unfold updateObject.
  rewrite lit_1_5, lit_1, lit_0_01. cbn [scale num_le num_add real_number].
  destruct (Exact.leb 1.5 (scale obj)) eqn:Hge.
  - apply Exact_leb_true in Hge. repeat split; intros; lra.
  - apply Exact_leb_false in Hge. repeat split; intros; lra.
Qed.

End IntegratorReal.

Section IntegratorBinary64.

Local Open Scope float_scope.

(** X21, the clamp of C5 on binary64: when the position reached before
    the clamp is not NaN and the bounds [dim/2] and [viewportDim - dim/2],
    as computed, are numbers in this order, the position after
    [updateObject] lies between them. *)
Lemma updateObject_within_viewport_binary64
  (props : Props float) (obj : Body float) (viewportWidth viewportHeight : float) :
  let o := updateObject props obj viewportWidth viewportHeight in
  let px := x obj + velocityX obj * drag props in
  let py := y obj + (velocityY obj + gravity props) * drag props in
  let left := width obj / lit 2 in
  let right := viewportWidth - width obj / lit 2 in
  let top := height obj / lit 2 in
  let bottom := viewportHeight - height obj / lit 2 in
  is_nan px = false -> is_nan left = false -> is_nan right = false ->
  is_nan py = false -> is_nan top = false -> is_nan bottom = false ->
  (left <=? right) = true -> (top <=? bottom) = true ->
  ((left <=? x o) = true /\ (x o <=? right) = true) /\
  ((top <=? y o) = true /\ (y o <=? bottom) = true).
Proof.
  intros o px py left right top bottom Hpx Hl Hr Hpy Ht Hb Hlr Htb.
  split.
  - exact (clamp_between_binary64 left right px Hl Hr Hpx Hlr).
  - exact (clamp_between_binary64 top bottom py Ht Hb Hpy Htb).
Qed.

(** The hypotheses on NaN are needed: [Math.max] and [Math.min] return
    NaN on a NaN argument, so a body whose velocity is NaN, as
    [handleCollisionResponse] leaves it after a collision of coincident
    centres, has a NaN position after the step. *)
Example nan_velocity_escapes_clamp_binary64 :
  let o := updateObject Sample.props4 (Sample.body 100 100 30 nan nan) 800 600 in
  is_nan (x o) = true /\ is_nan (y o) = true.
Proof. vm_compute. split; reflexivity. Qed.

(** A body that leaves through the right wall of the 800 by 600 window
    in one step: the bounce reverses its velocity and the clamp puts it
    back at [800 - 15]. *)
Example bounce_and_clamp_binary64 :
  let o := updateObject Sample.props4 (Sample.body 780 300 30 20 0) 800 600 in
  (velocityX o <? 0) = true /\ x o = 785.
Proof. vm_compute. split; reflexivity. Qed.

(** The largest scale below 1.5 stays below 1.51 on binary64 too. *)
Example scale_below_limit_binary64 :
  let obj := mkBody 100 100 30 30 None 0 0 0 0 0x1.7ffffffffffffp+0 1 None in
  (scale obj <? lit 1.5) = true /\
  (scale (updateObject Sample.props4 obj 800 600) <? lit 1.51) = true.
Proof. vm_compute. split; reflexivity. Qed.

End IntegratorBinary64.

(** C8, as stated, fails: a body whose scale is 1.49 is not reset, and
    after the step its scale is not below 1.5. *)
Lemma scale_not_below_one_and_a_half :
  ~ (forall (props : Props float) (obj : Body float) (w h : float),
        (scale (updateObject props obj w h) <? #1.5)%js = true).
Proof.
  intros Hclaim.
  specialize (Hclaim Sample.props4 Sample.grown 800%float 600%float).
  vm_compute in Hclaim. discriminate Hclaim.
Qed.

(** ** Reproduction *)

Section ReproductionAnyNumber.

Context {T : Type} `{JsNumber T}.
Local Open Scope js_scope.

(** X23: what [reproduceObject] returns when it returns an object: the
    midpoint of the parents, their averaged size, the sprite of the
    first parent, scale 1, mass 1, and no [reproductionChance]; and it
    returns one only below the chance of the first parent and with
    fewer than [maxObjects] objects in the state. *)
Lemma reproduceObject_child
  (props : Props T) (host : Host T) (objects : list (Body T))
  (a b child : Body T) (n n' : nat) :
  reproduceObject props host objects a b n = (Some child, n') ->
  x child = (x a + x b) / #2 /\
  y child = (y a + y b) / #2 /\
  width child = (width a + width b) / #2 /\
  height child = (height a + height b) / #2 /\
  sprite child = sprite a /\
  scale child = #1 /\
  mass child = #1 /\
  reproductionChance child = None /\
  below_chance (random_values host n) (reproductionChance a) = true /\
  List.length objects < maxObjects props.
Proof.
  unfold reproduceObject, bind, Math_random, randomBetween, ret; simpl.
  destruct (below_chance _ _) eqn:Hchance; simpl; [|discriminate].
  destruct (Nat.ltb _ _) eqn:Hcap; [|discriminate].
  intros Hret. injection Hret as Hchild _. subst child. simpl.
  apply Nat.ltb_lt in Hcap. repeat split; assumption || reflexivity.
Qed.

(** An object without [reproductionChance] never passes the test of
    [reproduceObject] as first parent. *)
Lemma no_chance_no_child
  (props : Props T) (host : Host T) (objects : list (Body T))
  (a b : Body T) (n : nat) :
  reproductionChance a = None ->
  reproduceObject props host objects a b n = (None, S n).
Proof.
  intros Hnone. unfold reproduceObject, bind, Math_random, ret.
  rewrite Hnone. reflexivity.
Qed.

End ReproductionAnyNumber.

(** C4: with a draw of 0, below the chance 0.01 of the first parent,
    and 3 objects in the state under a cap of 4, [reproduceObject]
    returns a child at the midpoint of the parents, with their averaged
    size, the sprite of the first parent, scale 1 and mass 1; the first
    parent has [reproductionChance] 0.01, and the child has none. *)
Theorem child_lacks_reproductionChance :
  let a := Sample.body 100 100 30 0 0 in
  let b := Sample.body 110 100 40 0 0 in
  exists child n,
    reproduceObject Sample.props4 Sample.host Sample.crowd a b 0 = (Some child, n) /\
    x child = 105%float /\ y child = 100%float /\
    width child = 35%float /\ height child = 35%float /\
    sprite child = sprite a /\
    scale child = 1%float /\ mass child = 1%float /\
    reproductionChance a = Some (lit 0.01) /\
    reproductionChance child = None.
Proof.
  intros a b. eexists. eexists. split.
  - vm_compute. reflexivity.
  - vm_compute. repeat split; reflexivity.
Qed.

(** ** The animation callback *)

(** C1: one run of [animate] on three overlapping bodies, with
    [maxObjects = 4] and every draw below the chance: each of the three
    pairs spawns a child, because the test reads the length of the
    state, 3, which the children pushed in the same run do not change.
    The array handed to [setObjects] has 6 objects. *)
Theorem animate_overshoots_maxObjects :
  exists committed n',
    animate Sample.props4 Sample.host Sample.crowd 0 = (Returned committed, n') /\
    List.length Sample.crowd = 3 /\
    maxObjects Sample.props4 = 4 /\
    List.length committed = 6.
Proof.
  eexists. eexists. split.
  - vm_compute. reflexivity.
  - vm_compute. repeat split; reflexivity.
Qed.

(** *** What the test of [reproduceObject] does guarantee *)

Section Population.

Context {T : Type} `{JsNumber T}.
Variable props : Props T.
Variable host : Host T.

Lemma store_length (i : nat) (o : Body T) (l : list (Body T)) :
  List.length (store i o l) = List.length l.
Proof.
  revert i. induction l as [|b l IH]; intros [|i]; simpl; auto.
Qed.

(** With [maxObjects] objects or more in the state, nothing is
    spawned. *)
Lemma reproduceObject_at_cap (objects : list (Body T)) (a b : Body T) (n : nat) :
  maxObjects props <= List.length objects ->
  reproduceObject props host objects a b n = (None, S n).
Proof.
  intros Hcap. unfold reproduceObject, bind, Math_random, ret.
  apply Nat.ltb_ge in Hcap. rewrite Hcap, andb_false_r. reflexivity.
Qed.

(** The inner loop keeps the length of the state, and pushes nothing
    when the state is at the cap. *)
Lemma collideLoop_length (k idx i : nat) (f : Frame T) (n : nat) :
  List.length (bodies (fst (collideLoop props host k idx i f n)))
  = List.length (bodies f).
Proof.
  revert i f n. induction k as [|k IH]; intros i f n; simpl; [reflexivity|].
  destruct (nth_error (bodies f) idx) as [obj|]; [|reflexivity].
  destruct (nth_error (bodies f) i) as [obj2|]; [|reflexivity].
  destruct (detectCollisions obj obj2); [|apply IH].
  destruct (handleCollisionResponse obj obj2) as [obj' obj2'].
  unfold bind.
  destruct (reproduceObject _ _ _ _ _ n) as [[child|] n'];
    rewrite IH; simpl; now rewrite !store_length.
Qed.

Lemma collideLoop_at_cap (k idx i : nat) (f : Frame T) (n : nat) :
  maxObjects props <= List.length (bodies f) ->
  pushed (fst (collideLoop props host k idx i f n)) = pushed f.
Proof.
  revert i f n. induction k as [|k IH]; intros i f n Hcap; simpl; [reflexivity|].
  destruct (nth_error (bodies f) idx) as [obj|]; [|reflexivity].
  destruct (nth_error (bodies f) i) as [obj2|]; [|reflexivity].
  destruct (detectCollisions obj obj2); [|now apply IH].
  destruct (handleCollisionResponse obj obj2) as [obj' obj2'].
  unfold bind. rewrite reproduceObject_at_cap
    by (now rewrite !store_length).
  rewrite IH; simpl; [reflexivity | now rewrite !store_length].
Qed.

Lemma moveAndCollide_length (idx : nat) (f : Frame T) (n : nat) :
  List.length (bodies (fst (moveAndCollide props host idx f n)))
  = List.length (bodies f).
Proof.
  unfold moveAndCollide.
  destruct (nth_error (bodies f) idx) as [obj|]; [|reflexivity].
  rewrite collideLoop_length. simpl. apply store_length.
Qed.

Lemma moveAndCollide_at_cap (idx : nat) (f : Frame T) (n : nat) :
  maxObjects props <= List.length (bodies f) ->
  pushed (fst (moveAndCollide props host idx f n)) = pushed f.
Proof.
  intros Hcap. unfold moveAndCollide.
  destruct (nth_error (bodies f) idx) as [obj|]; [|reflexivity].
  rewrite collideLoop_at_cap; simpl; [reflexivity | now rewrite store_length].
Qed.

(** A visit that returns has moved and collided the body and drawn
    it. *)
Lemma visit_returned (idx : nat) (f f' : Frame T) (n n' : nat) :
  visit props host idx f n = (Returned f', n') ->
  moveAndCollide props host idx f n = (f', n') /\
  draw idx f' = Returned tt.
Proof.
  unfold visit, bind, ret.
  destruct (moveAndCollide props host idx f n) as [f1 n1].
  destruct (draw idx f1) as [[]|] eqn:Hdraw; intros Hret;
    [|discriminate Hret].
  injection Hret as E1 E2. subst. split; [reflexivity | assumption].
Qed.

(** A [forEach] that returns has made its first visit and gone on
    from there. *)
Lemma forEach_returned (k idx : nat) (f f' : Frame T) (n n' : nat) :
  forEach props host (S k) idx f n = (Returned f', n') ->
  exists f1 n1,
    visit props host idx f n = (Returned f1, n1) /\
    forEach props host k (S idx) f1 n1 = (Returned f', n').
Proof.
  cbn [forEach]. unfold bind at 1.
  destruct (visit props host idx f n) as [[f1|] n1]; intros Hret;
    [|discriminate Hret].
  exists f1, n1. split; [reflexivity | exact Hret].
Qed.

Lemma forEach_at_cap (k idx : nat) (f f' : Frame T) (n n' : nat) :
  maxObjects props <= List.length (bodies f) ->
  forEach props host k idx f n = (Returned f', n') ->
  List.length (bodies f') = List.length (bodies f) /\ pushed f' = pushed f.
Proof.
  revert idx f n. induction k as [|k IH]; intros idx f n Hcap Hrun.
  - injection Hrun as <- _. split; reflexivity.
  - destruct (forEach_returned k idx f f' n n' Hrun) as (f1 & n1 & Hvisit & Hrest).
    destruct (visit_returned idx f f1 n n1 Hvisit) as [Hmove _].
    pose proof (moveAndCollide_length idx f n) as Hlen.
    pose proof (moveAndCollide_at_cap idx f n Hcap) as Hpush.
    rewrite Hmove in Hlen, Hpush. cbn [fst] in Hlen, Hpush.
    destruct (IH (S idx) f1 n1) as [IHlen IHpush];
      [now rewrite Hlen | exact Hrest |].
    split; congruence.
Qed.

(** A run that hands an array to [setObjects] has gone through
    [forEach]. *)
Lemma animate_returned (objects committed : list (Body T)) (n n' : nat) :
  animate props host objects n = (Returned committed, n') ->
  exists f,
    forEach props host (List.length objects) 0 (mkFrame objects []) n
    = (Returned f, n') /\
    committed = bodies f ++ pushed f.
Proof.
  unfold animate, bind, ret.
  destruct (forEach props host _ 0 _ n) as [[f|] n1]; intros Hret;
    [|discriminate Hret].
  injection Hret as <- <-. exists f. split; reflexivity.
Qed.

(** X22: once the state holds [maxObjects] objects or more, a run of
    [animate] spawns nothing: the array it hands to [setObjects] has
    as many objects as the state. *)
Lemma animate_at_cap (objects committed : list (Body T)) (n n' : nat) :
  maxObjects props <= List.length objects ->
  animate props host objects n = (Returned committed, n') ->
  List.length committed = List.length objects.
Proof.
  intros Hcap Hrun.
  destruct (animate_returned objects committed n n' Hrun) as (f & Hloop & ->).
  destruct (forEach_at_cap _ 0 (mkFrame objects []) f n n' Hcap Hloop)
    as [Hlen Hpush].
  cbn [bodies pushed] in *. rewrite length_app, Hlen, Hpush. simpl. lia.
Qed.

End Population.

(** ** Initialisation *)

(** [Promise.all] rejects when one of the promises does. *)
Lemma Promise_all_rejected {A : Type} (ps : list (Settled A)) :
  In Rejected ps -> Promise_all ps = Rejected.
Proof.
  induction ps as [|p ps IH]; intros Hin.
  - destruct Hin.
  - destruct p as [a|]; simpl.
    + destruct Hin as [Habs|Hin]; [discriminate|].
      now rewrite (IH Hin).
    + reflexivity.
Qed.

(** [createObjects] rejects, without creating any object, as soon as
    one of [userImages] fails to load. *)
Lemma createObjects_rejected {T : Type} `{JsNumber T}
  (props : Props T) (host : Host T) (src : string) (n : nat) :
  In src (userImages props) -> loads host src = false ->
  createObjects props host n = (Rejected, n).
Proof.
  intros Hin Hfail. unfold createObjects.
  rewrite Promise_all_rejected; [reflexivity|].
  apply in_map_iff. exists src. split; [|assumption].
  unfold loadImage. now rewrite Hfail.
Qed.

(** C9: with two sprites of which ["broken.png"] fails to load,
    [createObjects] is rejected: no placeholder takes the place of the
    failed image and no object is created, although ["a.png"] loads and
    [objectCount] is 5. *)
Theorem broken_sprite_rejects_all :
  loadImage Sample.host "a.png" = Fulfilled "a.png"%string /\
  loadImage Sample.host "broken.png" = Rejected /\
  objectCount Sample.props_broken = 5 /\
  createObjects Sample.props_broken Sample.host 0 = (Rejected, 0).
Proof. vm_compute. repeat split; reflexivity. Qed.

(** ** Further properties of the resolver *)

(** The guard [if (speed < 0) return], over the reals. *)
Lemma separating_pair_kept (a b : Body R) :
  Exact.ltb (speed a b) 0 = true -> handleCollisionResponse a b = (a, b).
Proof.
  intros Hguard. unfold handleCollisionResponse.
  rewrite lit_0. cbn [num_lt real_number]. now rewrite Hguard.
Qed.

Lemma Exact_ltb_false (a b : R) : Exact.ltb a b = false <-> (b <= a)%R.
Proof.
  unfold Exact.ltb. destruct (Rlt_dec a b); split; intros;
    try congruence; lra.
Qed.

Section ResolverPhysics.

Local Open Scope R_scope.

(** When the guard does not return, the new velocities are the old ones
    moved along the normal by the impulse times the mass of the other
    body. *)
Lemma resolver_applied (a b : Body R) :
  Exact.ltb (speed a b) 0 = false ->
  let n := vCollisionNorm a b in
  let impulse := 2 * speed a b / (mass a + mass b) in
  handleCollisionResponse a b
  = (set_velocity a (velocityX a - impulse * mass b * fst n)
                    (velocityY a - impulse * mass b * snd n),
     set_velocity b (velocityX b + impulse * mass a * fst n)
                    (velocityY b + impulse * mass a * snd n)).
Proof.
  intros Hgo n impulse. subst n impulse. unfold handleCollisionResponse.
  rewrite lit_0, lit_2. cbn [num_lt real_number]. rewrite Hgo. reflexivity.
Qed.

(** Between distinct centres the normal has length 1. *)
Lemma normal_is_unit (a b : Body R) :
  (x a <> x b \/ y a <> y b) ->
  fst (vCollisionNorm a b) * fst (vCollisionNorm a b)
  + snd (vCollisionNorm a b) * snd (vCollisionNorm a b) = 1.
Proof.
  intros Hapart. unfold vCollisionNorm, collisionDistance, vCollision.
  cbn [fst snd num_sub num_mul num_add num_div Math_sqrt real_number].
  set (dx := x b - x a). set (dy := y b - y a).
  assert (Hpos : 0 < dx * dx + dy * dy).
  { pose proof (Rle_0_sqr dx) as Hx2. pose proof (Rle_0_sqr dy) as Hy2.
    unfold Rsqr in Hx2, Hy2.
    destruct Hapart as [Hx | Hy].
    - assert (Hne : dx <> 0) by (subst dx; lra).
      apply Rsqr_pos_lt in Hne. unfold Rsqr in Hne. lra.
    - assert (Hne : dy <> 0) by (subst dy; lra).
      apply Rsqr_pos_lt in Hne. unfold Rsqr in Hne. lra. }
  set (d := R_sqrt.sqrt (dx * dx + dy * dy)).
  assert (Hd : 0 < d) by (apply sqrt_lt_R0; exact Hpos).
  assert (Hdd : d * d = dx * dx + dy * dy) by (apply sqrt_sqrt; lra).
  replace (dx / d * (dx / d) + dy / d * (dy / d))
    with ((dx * dx + dy * dy) / (d * d)) by (field; lra).
  rewrite Hdd. field. lra.
Qed.

(** The resolver leaves the positions alone, so the normal of the pair
    is the same after the call. *)
Lemma normal_kept (a b : Body R) :
  vCollisionNorm (fst (handleCollisionResponse a b))
                 (snd (handleCollisionResponse a b))
  = vCollisionNorm a b.
Proof.
  unfold handleCollisionResponse.
  destruct (num_lt _ _); reflexivity.
Qed.

(** X1: for two bodies of positive mass with distinct centres, in real
    arithmetic, [handleCollisionResponse] keeps the total kinetic
    energy [m1 |v1|^2 / 2 + m2 |v2|^2 / 2] of the pair: the collision
    is perfectly elastic. *)
Theorem resolver_keeps_kinetic_energy (a b : Body R) :
  0 < mass a -> 0 < mass b ->
  (x a <> x b \/ y a <> y b) ->
  kineticEnergy (fst (handleCollisionResponse a b))
  + kineticEnergy (snd (handleCollisionResponse a b))
  = kineticEnergy a + kineticEnergy b.
Proof.
  intros Hma Hmb Hapart.
  destruct (Exact.ltb (speed a b) 0) eqn:Hguard.
  - rewrite (separating_pair_kept a b Hguard). reflexivity.
  - rewrite (resolver_applied a b Hguard).
    pose proof (normal_is_unit a b Hapart) as Hunit.
    unfold kineticEnergy, speed, vRelativeVelocity in *.
    cbn [fst snd set_velocity velocityX velocityY mass
         num_sub num_mul num_add num_div real_number] in *.
    rewrite lit_2.
    destruct (vCollisionNorm a b) as [nx ny]. cbn [fst snd] in *.
    set (s := (velocityX a - velocityX b) * nx
              + (velocityY a - velocityY b) * ny).
    set (J := 2 * s / (mass a + mass b)).
    assert (HJ : J * (mass a + mass b) = 2 * s)
      by (subst J; field; lra).
    assert (Hzero : J * mass a * mass b
                    * (J * (mass a + mass b) * (nx * nx + ny * ny) - 2 * s) = 0)
      by (rewrite Hunit, HJ; ring).
    subst s. lra.
Qed.

(** Witness of X1: the bodies of masses 1 and 3. *)
Lemma resolver_keeps_kinetic_energy_witness :
  kineticEnergy (fst (handleCollisionResponse Scene.light Scene.heavy))
  + kineticEnergy (snd (handleCollisionResponse Scene.light Scene.heavy))
  = kineticEnergy Scene.light + kineticEnergy Scene.heavy.
Proof.
  apply (resolver_keeps_kinetic_energy Scene.light Scene.heavy); simpl.
  - lra.
  - lra.
  - left. lra.
Defined.

(** The impulse turns the closing speed into its opposite. *)
Lemma closing_speed_reversed (a b : Body R) :
  0 < mass a -> 0 < mass b ->
  (x a <> x b \/ y a <> y b) ->
  0 <= speed a b ->
  speed (fst (handleCollisionResponse a b)) (snd (handleCollisionResponse a b))
  = - speed a b.
Proof.
  intros Hma Hmb Hapart Hclosing.
  assert (Hguard : Exact.ltb (speed a b) 0 = false)
    by (apply Exact_ltb_false; exact Hclosing).
  unfold speed at 1. rewrite normal_kept.
  rewrite (resolver_applied a b Hguard).
  pose proof (normal_is_unit a b Hapart) as Hunit.
  unfold speed, vRelativeVelocity in *.
  cbn [fst snd set_velocity velocityX velocityY mass
       num_sub num_mul num_add num_div real_number] in *.
  destruct (vCollisionNorm a b) as [nx ny]. cbn [fst snd] in *.
  set (s := (velocityX a - velocityX b) * nx
            + (velocityY a - velocityY b) * ny).
  set (J := 2 * s / (mass a + mass b)).
  assert (HJ : J * (mass a + mass b) = 2 * s)
    by (subst J; field; lra).
  assert (Hzero : (J * (mass a + mass b)) * (nx * nx + ny * ny) = 2 * s)
    by (rewrite Hunit, HJ; ring).
  subst s. lra.
Qed.

(** X2: for two bodies of positive mass with distinct centres, in real
    arithmetic, when the resolver applies its impulse (closing speed at
    least 0) the closing speed of the pair after the call is the
    opposite of the one before: an approaching pair leaves separating
    at the same rate. *)
Theorem resolver_reverses_closing_speed (a b : Body R) :
  0 < mass a -> 0 < mass b ->
  (x a <> x b \/ y a <> y b) ->
  0 <= speed a b ->
  speed (fst (handleCollisionResponse a b)) (snd (handleCollisionResponse a b))
  = - speed a b.
Proof. exact (closing_speed_reversed a b). Qed.

(** Witness of X2: the bodies of masses 1 and 3, which approach. *)
Lemma resolver_reverses_closing_speed_witness :
  speed (fst (handleCollisionResponse Scene.light Scene.heavy))
        (snd (handleCollisionResponse Scene.light Scene.heavy))
  = - speed Scene.light Scene.heavy.
Proof.
  apply (resolver_reverses_closing_speed Scene.light Scene.heavy).
  - simpl. lra.
  - simpl. lra.
  - left. simpl. lra.
  - unfold speed, vRelativeVelocity, vCollisionNorm, collisionDistance,
      vCollision. simpl.
    replace ((103 - 100) * (103 - 100) + (104 - 100) * (104 - 100))
      with (5 * 5) by ring.
    rewrite sqrt_square by lra. lra.
Defined.

(** X3: for two bodies of positive mass with distinct centres, in real
    arithmetic, resolving a pair a second time changes nothing: after
    one call the pair separates, or has closing speed 0, and the second
    call gives the same two bodies. *)
Theorem resolver_idempotent (a b : Body R) :
  0 < mass a -> 0 < mass b ->
  (x a <> x b \/ y a <> y b) ->
  handleCollisionResponse (fst (handleCollisionResponse a b))
                          (snd (handleCollisionResponse a b))
  = handleCollisionResponse a b.
Proof.
  intros Hma Hmb Hapart.
  destruct (Exact.ltb (speed a b) 0) eqn:Hguard.
  - rewrite (separating_pair_kept a b Hguard). cbn [fst snd].
    apply (separating_pair_kept a b Hguard).
  - assert (Hclosing : 0 <= speed a b) by (apply Exact_ltb_false; exact Hguard).
    pose proof (closing_speed_reversed a b Hma Hmb Hapart Hclosing) as Hrev.
    destruct (handleCollisionResponse a b) as [a' b']. cbn [fst snd] in *.
    destruct (Rle_lt_or_eq_dec 0 (speed a b) Hclosing) as [Hpos | Hzero].
    + apply separating_pair_kept. apply Exact_ltb_true. lra.
    + apply stationary_pair_untouched_real. lra.
Qed.

(** Witness of X3: the bodies of masses 1 and 3. *)
Lemma resolver_idempotent_witness :
  handleCollisionResponse
    (fst (handleCollisionResponse Scene.light Scene.heavy))
    (snd (handleCollisionResponse Scene.light Scene.heavy))
  = handleCollisionResponse Scene.light Scene.heavy.
Proof.
  apply (resolver_idempotent Scene.light Scene.heavy); simpl.
  - lra.
  - lra.
  - left. lra.
Defined.

End ResolverPhysics.

(** ** Further properties of the detector and the integrator *)

Section DetectorIntegratorReal.

Local Open Scope R_scope.

(** X4: in real arithmetic [detectCollisions] answers true exactly when
    the squared distance of the centres is below the square of the mean
    of the two widths and that mean is positive; the heights play no
    part, and two bodies whose widths sum to 0 or less never collide. *)
Theorem detectCollisions_iff (a b : Body R) :
  detectCollisions a b = true <->
  (x a - x b) * (x a - x b) + (y a - y b) * (y a - y b)
  < (width a + width b) / 2 * ((width a + width b) / 2)
  /\ 0 < width a + width b.
Proof.
  unfold detectCollisions. rewrite lit_2.
  cbn [num_sub num_mul num_add num_div num_lt Math_sqrt real_number].
  set (d2 := (x a - x b) * (x a - x b) + (y a - y b) * (y a - y b)).
  set (r := (width a + width b) / 2).
  assert (Hd2 : 0 <= d2).
  { pose proof (Rle_0_sqr (x a - x b)) as Hx.
    pose proof (Rle_0_sqr (y a - y b)) as Hy.
    unfold Rsqr in Hx, Hy. subst d2. lra. }
  pose proof (sqrt_pos d2) as Hroot.
  pose proof (sqrt_sqrt d2 Hd2) as Hsq.
  rewrite Exact_ltb_true. split.
  - intros Hlt. split; [|subst r; lra].
    rewrite <- Hsq. nra.
  - intros [Hlt Hr].
    assert (Hrpos : 0 < r) by (subst r; lra).
    rewrite <- (sqrt_square r) by lra.
    apply sqrt_lt_1; nra.
Qed.

(** The two tests of [updateObject] against the walls of one axis. *)
Lemma wall_test_false (p half limit : R) :
  half <= p <= limit - half ->
  (Exact.ltb limit (p + half) || Exact.ltb (p - half) 0)%bool = false.
Proof.
  intros [Hlo Hhi]. apply orb_false_iff. split; apply Exact_ltb_false; lra.
Qed.

Lemma wall_test_true (p half limit : R) :
  limit < p + half \/ p - half < 0 ->
  (Exact.ltb limit (p + half) || Exact.ltb (p - half) 0)%bool = true.
Proof.
  intros [Hhi | Hlo]; apply orb_true_iff; [left | right];
    apply Exact_ltb_true; lra.
Qed.

Lemma clamp_inside (lo hi v : R) : lo <= v <= hi -> Rmin (Rmax lo v) hi = v.
Proof.
  intros [Hlo Hhi]. rewrite Rmax_right by lra. apply Rmin_left. lra.
Qed.

Lemma clamp_above (lo hi v : R) : lo <= hi -> hi <= v -> Rmin (Rmax lo v) hi = hi.
Proof.
  intros Hle Hv. rewrite Rmax_right by lra. apply Rmin_right. lra.
Qed.

Lemma clamp_below (lo hi v : R) : lo <= hi -> v <= lo -> Rmin (Rmax lo v) hi = lo.
Proof.
  intros Hle Hv. rewrite Rmax_left by lra. apply Rmin_left. lra.
Qed.

(** X5: away from the walls [updateObject] is one explicit Euler step
    with the drag applied after gravity: when the position reached,
    [x + vx * drag] and [y + (vy + gravity) * drag], leaves the body
    inside the viewport, that position and these velocities are the new
    ones; no bounce and no clamp take place. *)
Theorem free_flight
  (props : Props R) (obj : Body R) (viewportWidth viewportHeight : R) :
  let vx := velocityX obj * drag props in
  let vy := (velocityY obj + gravity props) * drag props in
  width obj / 2 <= x obj + vx <= viewportWidth - width obj / 2 ->
  height obj / 2 <= y obj + vy <= viewportHeight - height obj / 2 ->
  let o := updateObject props obj viewportWidth viewportHeight in
  x o = x obj + vx /\ y o = y obj + vy /\
  velocityX o = vx /\ velocityY o = vy.
Proof.
  intros vx vy Hx Hy o. subst o. unfold updateObject.
  rewrite !lit_2, !lit_0.
  cbn [x y velocityX velocityY num_sub num_mul num_add num_div num_neg
       num_lt Math_min Math_max real_number].
  fold vx vy.
  rewrite (wall_test_false _ _ _ Hx), (wall_test_false _ _ _ Hy).
  rewrite (clamp_inside _ _ _ Hx), (clamp_inside _ _ _ Hy).
  repeat split; reflexivity.
Qed.

(** Witness of X5: a body in the middle of an 800 by 600 window. *)
Lemma free_flight_witness :
  let o := updateObject Sample.rprops Scene.floating 800 600 in
  x o = 400 + 2 * drag Sample.rprops /\
  y o = 300 + (1 + gravity Sample.rprops) * drag Sample.rprops /\
  velocityX o = 2 * drag Sample.rprops /\
  velocityY o = (1 + gravity Sample.rprops) * drag Sample.rprops.
Proof.
  apply (free_flight Sample.rprops Scene.floating 800 600);
    unfold Sample.rprops, defaultProps; simpl; unfold Q2R; simpl; lra.
Defined.

(** X6: a body no higher than the viewport whose step would take it
    through the floor ([y + height/2] beyond the viewport height) or
    through the ceiling ([y - height/2] below 0) is put back against
    that wall, at [viewportHeight - height/2] or [height/2], and its
    vertical velocity is the one reached, reversed and multiplied by
    [bounceFriction]. *)
Theorem floor_and_ceiling_bounce
  (props : Props R) (obj : Body R) (viewportWidth viewportHeight : R) :
  let vy := (velocityY obj + gravity props) * drag props in
  let o := updateObject props obj viewportWidth viewportHeight in
  height obj <= viewportHeight ->
  (viewportHeight < y obj + vy + height obj / 2 ->
   y o = viewportHeight - height obj / 2 /\
   velocityY o = - vy * bounceFriction props) /\
  (y obj + vy - height obj / 2 < 0 ->
   y o = height obj / 2 /\
   velocityY o = - vy * bounceFriction props).
Proof.
  intros vy o Hfits. subst o. unfold updateObject.
  rewrite !lit_2, !lit_0.
  cbn [x y velocityX velocityY num_sub num_mul num_add num_div num_neg
       num_lt Math_min Math_max real_number].
  fold vy. split; intros Hwall.
  - rewrite (wall_test_true (y obj + vy) _ _ (or_introl Hwall)).
    rewrite clamp_above by lra. split; reflexivity.
  - rewrite (wall_test_true (y obj + vy) _ _ (or_intror Hwall)).
    rewrite clamp_below by lra. split; reflexivity.
Qed.

(** Witness of X6: a body falling at speed 10 from 20 above the floor
    of a 600 high window. *)
Lemma floor_and_ceiling_bounce_witness :
  let vy := (10 + gravity Sample.rprops) * drag Sample.rprops in
  let o := updateObject Sample.rprops Scene.sinking 800 600 in
  (600 < 580 + vy + 30 / 2 ->
   y o = 600 - 30 / 2 /\
   velocityY o = - vy * bounceFriction Sample.rprops) /\
  (580 + vy - 30 / 2 < 0 ->
   y o = 30 / 2 /\
   velocityY o = - vy * bounceFriction Sample.rprops).
Proof.
  apply (floor_and_ceiling_bounce Sample.rprops Scene.sinking 800 600).
  simpl. lra.
Defined.

Lemma Rabs_damped (v k : R) : 0 <= k <= 1 -> Rabs (v * k) <= Rabs v.
Proof.
  intros [Hk0 Hk1]. rewrite Rabs_mult, (Rabs_right k) by lra.
  pose proof (Rabs_pos v). nra.
Qed.

(** X7: with [drag] and [bounceFriction] between 0 and 1, in real
    arithmetic, [updateObject] never makes a body faster than gravity
    allows: the horizontal speed does not grow, and the vertical speed
    after the step is at most the one before with [gravity] added,
    whether or not a wall is hit. *)
Theorem updateObject_never_speeds_up
  (props : Props R) (obj : Body R) (viewportWidth viewportHeight : R) :
  0 <= drag props <= 1 -> 0 <= bounceFriction props <= 1 ->
  let o := updateObject props obj viewportWidth viewportHeight in
  Rabs (velocityX o) <= Rabs (velocityX obj) /\
  Rabs (velocityY o) <= Rabs (velocityY obj + gravity props).
Proof.
  intros Hdrag Hbounce o. subst o. unfold updateObject.
  cbn [velocityX velocityY num_sub num_mul num_add num_div num_neg
       num_lt real_number].
  pose proof (Rabs_damped (velocityX obj) (drag props) Hdrag) as Hx.
  pose proof (Rabs_damped (velocityY obj + gravity props) (drag props) Hdrag)
    as Hy.
  split.
  - destruct (_ || _)%bool; [|exact Hx].
    eapply Rle_trans; [apply (Rabs_damped _ _ Hbounce)|].
    rewrite Rabs_Ropp. exact Hx.
  - destruct (_ || _)%bool; [|exact Hy].
    eapply Rle_trans; [apply (Rabs_damped _ _ Hbounce)|].
    rewrite Rabs_Ropp. exact Hy.
Qed.

(** Witness of X7: the default props, whose drag is 0.99 and whose
    bounce friction is 0.7. *)
Lemma updateObject_never_speeds_up_witness :
  let o := updateObject Sample.rprops Scene.sinking 800 600 in
  Rabs (velocityX o) <= Rabs 2 /\
  Rabs (velocityY o) <= Rabs (10 + gravity Sample.rprops).
Proof.
  apply (updateObject_never_speeds_up Sample.rprops Scene.sinking 800 600);
    unfold Sample.rprops, defaultProps; simpl; unfold Q2R; simpl; lra.
Defined.

End DetectorIntegratorReal.

(** ** Further properties of [reproduceObject] and [animate] *)

Section AnimateInvariants.

Context {T : Type} `{JsNumber T}.
Variable props : Props T.
Variable host : Host T.

Lemma same_make_refl (o : Body T) : same_make o o.
Proof. unfold same_make. repeat split; reflexivity. Qed.

Lemma same_make_trans (o1 o2 o3 : Body T) :
  same_make o1 o2 -> same_make o2 o3 -> same_make o1 o3.
Proof.
  unfold same_make. intros (A1 & A2 & A3 & A4 & A5 & A6) (B1 & B2 & B3 & B4 & B5 & B6).
  repeat split; congruence.
Qed.

Lemma updateObject_same_make (o : Body T) (w h : T) :
  same_make o (updateObject props o w h).
Proof. unfold same_make, updateObject. simpl. repeat split; reflexivity. Qed.

Lemma resolver_same_make (o o2 : Body T) :
  same_make o (fst (handleCollisionResponse o o2)) /\
  same_make o2 (snd (handleCollisionResponse o o2)).
Proof.
  unfold handleCollisionResponse.
  destruct (num_lt _ _); simpl; split; unfold same_make; simpl;
    repeat split; reflexivity.
Qed.

Lemma Forall2_store (l l' : list (Body T)) (i : nat) (cur o' : Body T) :
  Forall2 same_make l l' ->
  nth_error l' i = Some cur -> same_make cur o' ->
  Forall2 same_make l (store i o' l').
Proof.
  intros Hall. revert i. induction Hall as [|o0 o1 l l' Hhead Htail IH];
    intros i Hnth Hsame.
  - destruct i; discriminate Hnth.
  - destruct i as [|i]; simpl in *.
    + injection Hnth as ->. constructor; [|assumption].
      eapply same_make_trans; eassumption.
    + constructor; [assumption|]. now apply IH.
Qed.

Lemma nth_error_store_other (l : list (Body T)) (i j : nat) (o : Body T) :
  i <> j -> nth_error (store i o l) j = nth_error l j.
Proof.
  revert i j. induction l as [|b l IH]; intros [|i] [|j] Hne; simpl;
    try reflexivity; try congruence.
  apply IH. congruence.
Qed.

Lemma nth_error_store_same (l : list (Body T)) (i : nat) (o cur : Body T) :
  nth_error l i = Some cur -> nth_error (store i o l) i = Some o.
Proof.
  revert i. induction l as [|b l IH]; intros [|i] Hnth; simpl in *;
    try discriminate; [reflexivity | now apply IH].
Qed.

(** What [reproduceObject] returns is a spawned body. *)
Lemma reproduceObject_spawned
  (objects : list (Body T)) (a b child : Body T) (n n' : nat) :
  reproduceObject props host objects a b n = (Some child, n') ->
  spawned child.
Proof.
  unfold reproduceObject, bind, Math_random, randomBetween, ret; simpl.
  destruct (_ && _)%bool; [|discriminate].
  intros Hret. injection Hret as Hchild _. subst child.
  unfold spawned; simpl. repeat split; reflexivity.
Qed.

Lemma collideLoop_invariant (objects : list (Body T)) (k idx i : nat)
  (f : Frame T) (n : nat) :
  idx < i ->
  run_invariant objects f ->
  run_invariant objects (fst (collideLoop props host k idx i f n)).
Proof.
  intros Hlt. revert i f n Hlt.
  induction k as [|k IH]; intros i f n Hlt [Hbodies Hpushed]; simpl;
    [split; assumption|].
  destruct (nth_error (bodies f) idx) as [obj|] eqn:Hobj; [|split; assumption].
  destruct (nth_error (bodies f) i) as [obj2|] eqn:Hobj2; [|split; assumption].
  destruct (detectCollisions obj obj2);
    [|apply IH; [lia | split; assumption]].
  pose proof (resolver_same_make obj obj2) as [Hmake1 Hmake2].
  destruct (handleCollisionResponse obj obj2) as [obj' obj2'].
  cbn [fst snd] in Hmake1, Hmake2.
  assert (Hstored : Forall2 same_make objects
                      (store i obj2' (store idx obj' (bodies f)))).
  { eapply Forall2_store; [eapply Forall2_store; eassumption | | exact Hmake2].
    rewrite nth_error_store_other by lia. exact Hobj2. }
  unfold bind.
  destruct (reproduceObject _ _ _ _ _ n) as [[child|] n'] eqn:Hspawn.
  - apply IH; [lia|]. split; [exact Hstored|]. cbn [pushed].
    apply Forall_app. split; [assumption|].
    constructor; [|constructor].
    eapply reproduceObject_spawned; eassumption.
  - apply IH; [lia|]. split; assumption.
Qed.

Lemma moveAndCollide_invariant (objects : list (Body T)) (idx : nat)
  (f : Frame T) (n : nat) :
  run_invariant objects f ->
  run_invariant objects (fst (moveAndCollide props host idx f n)).
Proof.
  intros [Hbodies Hpushed]. unfold moveAndCollide.
  destruct (nth_error (bodies f) idx) as [obj|] eqn:Hobj; [|split; assumption].
  apply collideLoop_invariant; [lia|].
  split; [|assumption]. cbn [bodies].
  eapply Forall2_store; [eassumption | eassumption |].
  apply updateObject_same_make.
Qed.

Lemma forEach_invariant (objects : list (Body T)) (k idx : nat)
  (f f' : Frame T) (n n' : nat) :
  run_invariant objects f ->
  forEach props host k idx f n = (Returned f', n') ->
  run_invariant objects f'.
Proof.
  revert idx f n. induction k as [|k IH]; intros idx f n Hinv Hrun.
  - injection Hrun as <- _. exact Hinv.
  - destruct (forEach_returned props host k idx f f' n n' Hrun)
      as (f1 & n1 & Hvisit & Hrest).
    destruct (visit_returned props host idx f f1 n n1 Hvisit) as [Hmove _].
    pose proof (moveAndCollide_invariant objects idx f n Hinv) as Hstep.
    rewrite Hmove in Hstep. exact (IH (S idx) f1 n1 Hstep Hrest).
Qed.

Lemma run_invariant_start (objects : list (Body T)) :
  run_invariant objects (mkFrame objects []).
Proof.
  split; [|constructor]. cbn [bodies].
  induction objects as [|o l IH]; constructor;
    [apply same_make_refl | exact IH].
Qed.

(** The array handed to [setObjects] is the state, body for body with
    its make, followed by spawned bodies. *)
Lemma animate_shape (objects committed : list (Body T)) (n n' : nat) :
  animate props host objects n = (Returned committed, n') ->
  exists kept born,
    committed = kept ++ born /\
    Forall2 same_make objects kept /\ Forall spawned born.
Proof.
  intros Hrun.
  destruct (animate_returned props host objects committed n n' Hrun)
    as (f & Hloop & ->).
  destruct (forEach_invariant objects _ 0 _ f n n'
              (run_invariant_start objects) Hloop) as [Hbodies Hpushed].
  exists (bodies f), (pushed f). repeat split; assumption.
Qed.

(** X8: a run of [animate] that hands an array to [setObjects] has
    neither removed nor reordered a body, nor touched its size, sprite,
    angular velocity, mass or reproduction chance: the body at index
    [i] of the state is found at index [i] of that array, with these
    fields as they were. *)
Theorem animate_keeps_bodies
  (objects committed : list (Body T)) (n n' i : nat) (o : Body T) :
  animate props host objects n = (Returned committed, n') ->
  nth_error objects i = Some o ->
  exists o', nth_error committed i = Some o' /\ same_make o o'.
Proof.
  intros Hrun Hnth.
  destruct (animate_shape objects committed n n' Hrun)
    as (kept & born & -> & Hkept & _).
  clear Hrun.
  revert i Hnth. induction Hkept as [|o0 o1 l l' Hhead Htail IH]; intros i Hnth.
  - destruct i; discriminate Hnth.
  - destruct i as [|i]; simpl in *.
    + injection Hnth as <-. exists o1. split; [reflexivity | assumption].
    + now apply IH.
Qed.

(** X9: every object a run of [animate] appends to the state is a
    spawned body: it has scale 1, mass 1 and no reproduction chance. *)
Theorem animate_appends_spawned
  (objects committed : list (Body T)) (n n' j : nat) (o : Body T) :
  animate props host objects n = (Returned committed, n') ->
  List.length objects <= j ->
  nth_error committed j = Some o ->
  spawned o.
Proof.
  intros Hrun Hj Hnth.
  destruct (animate_shape objects committed n n' Hrun)
    as (kept & born & -> & Hkept & Hborn).
  assert (Hlen : List.length kept = List.length objects).
  { clear -Hkept. induction Hkept; simpl; congruence. }
  rewrite nth_error_app2 in Hnth by lia.
  apply nth_error_In in Hnth.
  rewrite Forall_forall in Hborn. now apply Hborn.
Qed.

(** The drawing calls on a body of the run succeed exactly when the
    body of the state at that index has a sprite. *)
Lemma draw_returns_iff (objects : list (Body T)) (idx : nat) (f : Frame T) :
  run_invariant objects f ->
  draw idx f = Returned tt <->
  (forall o, nth_error objects idx = Some o -> sprite o <> None).
Proof.
  intros [Hbodies _]. unfold draw. revert idx.
  induction Hbodies as [|o0 o1 l l' Hhead Htail IH]; intros idx.
  - destruct idx; simpl; split; auto; intros _ o Hnth; discriminate Hnth.
  - destruct idx as [|idx]; simpl; [|apply IH].
    destruct Hhead as (_ & _ & Hsprite & _). rewrite Hsprite.
    unfold drawImage. destruct (sprite o0) as [img|] eqn:Himg; split.
    + intros _ o Ho. assert (o = o0) by congruence. subst o. congruence.
    + intros _. reflexivity.
    + intros Hthrew. discriminate Hthrew.
    + intros Hall. exfalso. exact (Hall o0 eq_refl Himg).
Qed.

(** [forEach] returns exactly when the bodies it visits have
    sprites. *)
Lemma forEach_returns_iff (objects : list (Body T)) (k idx : nat)
  (f : Frame T) (n : nat) :
  run_invariant objects f ->
  (exists f' n', forEach props host k idx f n = (Returned f', n')) <->
  (forall j o, idx <= j < idx + k ->
               nth_error objects j = Some o -> sprite o <> None).
Proof.
  revert idx f n. induction k as [|k IH]; intros idx f n Hinv.
  - split; [intros _ j o Hj; lia | intros _; exists f, n; reflexivity].
  - pose proof (moveAndCollide_invariant objects idx f n Hinv) as Hstep.
    cbn [forEach]. unfold bind at 1. unfold visit, bind, ret.
    destruct (moveAndCollide props host idx f n) as [f1 n1]. cbn [fst] in Hstep.
    pose proof (draw_returns_iff objects idx f1 Hstep) as Hdraw.
    destruct (draw idx f1) as [[]|].
    + rewrite (IH (S idx) f1 n1 Hstep). split.
      * intros Hrest j o Hj Ho.
        destruct (Nat.eq_dec j idx) as [-> | Hne].
        -- apply (proj1 Hdraw eq_refl o Ho).
        -- apply (Hrest j o); [lia | exact Ho].
      * intros Hall j o Hj Ho. apply (Hall j o); [lia | exact Ho].
    + split.
      * intros (f' & n' & Hrun). discriminate Hrun.
      * intros Hall.
        assert (Hno : @Threw unit = Returned tt)
          by (apply (proj2 Hdraw); intros o Ho; apply (Hall idx o); [lia | exact Ho]).
        discriminate Hno.
Qed.

(** X24: a run of [animate] hands an array to [setObjects] exactly when
    every body of the state has a sprite; with a body whose sprite is
    [undefined] the run ends in the TypeError of [ctx.drawImage],
    before [setObjects] is reached. *)
Theorem animate_returns_iff (objects : list (Body T)) (n : nat) :
  (exists committed n', animate props host objects n = (Returned committed, n'))
  <-> Forall (fun o => sprite o <> None) objects.
Proof.
  pose proof (forEach_returns_iff objects (List.length objects) 0
                (mkFrame objects []) n (run_invariant_start objects)) as Hloop.
  split.
  - intros (committed & n' & Hrun).
    destruct (animate_returned props host objects committed n n' Hrun)
      as (f & Hfor & _).
    apply Forall_forall. intros o Hin.
    destruct (In_nth_error objects o Hin) as [j Hj].
    apply (proj1 Hloop (ex_intro _ f (ex_intro _ n' Hfor)) j o); [|exact Hj].
    assert (j < List.length objects)
      by (apply nth_error_Some; rewrite Hj; discriminate).
    lia.
  - intros Hall.
    destruct (proj2 Hloop) as (f & n' & Hfor).
    { intros j o _ Hj. rewrite Forall_forall in Hall.
      apply Hall. eapply nth_error_In; exact Hj. }
    exists (bodies f ++ pushed f), n'.
    unfold animate, bind, ret. rewrite Hfor. reflexivity.
Qed.

End AnimateInvariants.

(** Witness of X8: the first body of the crowd of three. *)
Lemma animate_keeps_bodies_witness :
  exists committed,
    animate Sample.props4 Sample.host Sample.crowd 0 = (Returned committed, 15) /\
    exists o',
      nth_error committed 0 = Some o' /\
      same_make (Sample.body 100 100 30 0 0) o'.
Proof.
  eexists. split; [vm_compute; reflexivity|].
  apply (animate_keeps_bodies Sample.props4 Sample.host Sample.crowd _ 0 15 0).
  - vm_compute. reflexivity.
  - reflexivity.
Defined.

(** Witness of X9: the first object appended to the crowd of three. *)
Lemma animate_appends_spawned_witness :
  exists committed o,
    animate Sample.props4 Sample.host Sample.crowd 0 = (Returned committed, 15) /\
    nth_error committed 3 = Some o /\
    spawned o.
Proof.
  eexists. eexists. split; [vm_compute; reflexivity|]. split.
  - vm_compute. reflexivity.
  - eapply (animate_appends_spawned Sample.props4 Sample.host Sample.crowd
              _ 0 15 3).
    + vm_compute. reflexivity.
    + simpl. lia.
    + vm_compute. reflexivity.
Defined.

Section AnimateGrowth.

Context {T : Type} `{JsNumber T}.
Variable props : Props T.
Variable host : Host T.

(** The inner loop pushes at most one object per turn. *)
Lemma collideLoop_pushes (k idx i : nat) (f : Frame T) (n : nat) :
  List.length (pushed f)
  <= List.length (pushed (fst (collideLoop props host k idx i f n)))
  <= List.length (pushed f) + k.
Proof.
  revert i f n. induction k as [|k IH]; intros i f n; simpl; [lia|].
  destruct (nth_error (bodies f) idx) as [obj|]; [|simpl; lia].
  destruct (nth_error (bodies f) i) as [obj2|]; [|simpl; lia].
  destruct (detectCollisions obj obj2);
    [|specialize (IH (S i) f n); lia].
  destruct (handleCollisionResponse obj obj2) as [obj' obj2'].
  unfold bind.
  destruct (reproduceObject _ _ _ _ _ n) as [[child|] n'].
  - match goal with
    | |- context [collideLoop _ _ k idx (S i) ?g n'] =>
        specialize (IH (S i) g n')
    end.
    cbn [pushed] in IH. rewrite length_app in IH. simpl in IH. lia.
  - match goal with
    | |- context [collideLoop _ _ k idx (S i) ?g n'] =>
        specialize (IH (S i) g n')
    end.
    cbn [pushed] in IH. lia.
Qed.

Lemma moveAndCollide_pushes (idx : nat) (f : Frame T) (n : nat) :
  List.length (pushed f)
  <= List.length (pushed (fst (moveAndCollide props host idx f n)))
  <= List.length (pushed f) + (List.length (bodies f) - S idx).
Proof.
  unfold moveAndCollide.
  destruct (nth_error (bodies f) idx) as [obj|]; [|simpl; lia].
  rewrite store_length.
  match goal with
  | |- context [collideLoop _ _ ?k idx (S idx) ?g n] =>
      pose proof (collideLoop_pushes k idx (S idx) g n) as Hloop
  end.
  cbn [pushed] in Hloop. exact Hloop.
Qed.

(** The visits from index [idx] to the end of a state of [idx + k]
    bodies push at most one object per pair of them. *)
Lemma forEach_pushes (k idx : nat) (f f' : Frame T) (n n' : nat) :
  idx + k = List.length (bodies f) ->
  forEach props host k idx f n = (Returned f', n') ->
  List.length (bodies f') = List.length (bodies f) /\
  List.length (pushed f) <= List.length (pushed f') /\
  2 * (List.length (pushed f') - List.length (pushed f)) <= k * (k - 1).
Proof.
  revert idx f n. induction k as [|k IH]; intros idx f n Hk Hrun.
  - injection Hrun as <- _. simpl. lia.
  - destruct (forEach_returned props host k idx f f' n n' Hrun)
      as (f1 & n1 & Hvisit & Hrest).
    destruct (visit_returned props host idx f f1 n n1 Hvisit) as [Hmove _].
    pose proof (moveAndCollide_length props host idx f n) as Hlen.
    pose proof (moveAndCollide_pushes idx f n) as Hpush.
    rewrite Hmove in Hlen, Hpush. cbn [fst] in Hlen, Hpush.
    destruct (IH (S idx) f1 n1) as (IHlen & IHlo & IHhi); [lia | exact Hrest |].
    split; [congruence|]. split; [lia|].
    replace (List.length (bodies f) - S idx) with k in Hpush by lia.
    nia.
Qed.

(** X10: a run of [animate] spawns at most one object per pair of
    bodies of the state: the array it hands to [setObjects] has at
    least the [n] bodies of the state and at most [n (n - 1) / 2]
    more. *)
Theorem animate_growth_bound
  (objects committed : list (Body T)) (n n' : nat) :
  animate props host objects n = (Returned committed, n') ->
  List.length objects <= List.length committed /\
  2 * (List.length committed - List.length objects)
  <= List.length objects * (List.length objects - 1).
Proof.
  intros Hrun.
  destruct (animate_returned props host objects committed n n' Hrun)
    as (f & Hloop & ->).
  destruct (forEach_pushes (List.length objects) 0 (mkFrame objects []) f n n')
    as (Hlen & Hlo & Hhi); [reflexivity | exact Hloop |].
  cbn [bodies pushed] in *. rewrite length_app, Hlen. simpl in Hhi.
  split; [lia|].
  replace (List.length objects + List.length (pushed f) - List.length objects)
    with (List.length (pushed f)) by lia.
  lia.
Qed.

(** X11: an object that [reproduceObject] has returned never passes its
    test as first parent: whatever the draw, the state and the other
    parent, calling [reproduceObject] on it returns null after one
    draw.  Only the bodies made by [createObjects] reproduce. *)
Theorem spawned_body_is_sterile
  (objects objects' : list (Body T)) (a b child partner : Body T) (n n' m : nat) :
  reproduceObject props host objects a b n = (Some child, n') ->
  reproduceObject props host objects' child partner m = (None, S m).
Proof.
  intros Hborn.
  assert (Hnone : reproductionChance child = None)
    by (apply (reproduceObject_spawned props host objects a b child n n' Hborn)).
  unfold reproduceObject, bind, Math_random, ret.
  rewrite Hnone. reflexivity.
Qed.

(** X12: the prop [friction] is read by no function of the engine:
    with any other value of it [createObjects], [updateObject] and
    [animate] return what they return without the change. *)
Theorem friction_is_never_read (f : T) (objects : list (Body T))
  (obj : Body T) (w h : T) (n : nat) :
  createObjects (with_friction f props) host n = createObjects props host n /\
  updateObject (with_friction f props) obj w h = updateObject props obj w h /\
  animate (with_friction f props) host objects n = animate props host objects n.
Proof. repeat split; reflexivity. Qed.

End AnimateGrowth.

(** Witness of X11: the child of two bodies of the crowd, offered as
    first parent with a draw of 0. *)
Lemma spawned_body_is_sterile_witness :
  exists child n',
    reproduceObject Sample.props4 Sample.host Sample.crowd
      (Sample.body 100 100 30 0 0) (Sample.body 105 100 30 0 0) 0
    = (Some child, n') /\
    reproduceObject Sample.props4 Sample.host Sample.crowd
      child (Sample.body 105 100 30 0 0) 7
    = (None, 8).
Proof.
  eexists. eexists. split.
  - vm_compute. reflexivity.
  - apply (spawned_body_is_sterile Sample.props4 Sample.host
             Sample.crowd Sample.crowd
             (Sample.body 100 100 30 0 0) (Sample.body 105 100 30 0 0)
             _ (Sample.body 105 100 30 0 0) 0 5 7).
    vm_compute. reflexivity.
Defined.

(** ** Further properties of [createObjects] *)

Section Creation.

Context {T : Type} `{JsNumber T}.
Variable props : Props T.
Variable host : Host T.

(** When every image loads, [Promise.all] hands back the images in the
    order of the sources. *)
Lemma Promise_all_loaded (srcs : list string) :
  Forall (fun src => loads host src = true) srcs ->
  Promise_all (map (loadImage host) srcs) = Fulfilled srcs.
Proof.
  induction 1 as [|src srcs Hload _ IH]; simpl; [reflexivity|].
  unfold loadImage at 1. rewrite Hload, IH. reflexivity.
Qed.

Lemma Promise_all_fulfilled (srcs : list string) (images : list Image) :
  Promise_all (map (loadImage host) srcs) = Fulfilled images ->
  images = srcs /\ Forall (fun src => loads host src = true) srcs.
Proof.
  revert images. induction srcs as [|src srcs IH]; intros images; simpl.
  - intros Heq. injection Heq as <-. split; [reflexivity | constructor].
  - unfold loadImage at 1. destruct (loads host src) eqn:Hload; [|discriminate].
    destruct (Promise_all (map (loadImage host) srcs)) as [l|]; [|discriminate].
    intros Heq. injection Heq as <-.
    destruct (IH l eq_refl) as [-> Hall].
    split; [reflexivity | constructor; assumption].
Qed.

(** One turn of the loop draws eight values. *)
Lemma createObject_draws (images : list Image) (i n : nat) :
  snd (createObject props host images i n) = 8 + n.
Proof. reflexivity. Qed.

(** The loop appends [k] objects, the [j]-th being the object created
    at index [i + j] from the draws starting at [n + 8 j]. *)
Lemma createLoop_spec (images : list Image) (k i : nat)
  (objs : list (Body T)) (n : nat) :
  snd (createLoop props host images k i objs n) = n + 8 * k /\
  exists news,
    fst (createLoop props host images k i objs n) = objs ++ news /\
    List.length news = k /\
    forall j o, nth_error news j = Some o ->
                o = fst (createObject props host images (i + j) (n + 8 * j)).
Proof.
  revert i objs n. induction k as [|k IH]; intros i objs n.
  - simpl. split; [lia|]. exists []. rewrite app_nil_r.
    repeat split. intros [|j] o Hnth; discriminate Hnth.
  - cbn [createLoop]. unfold bind.
    pose proof (createObject_draws images i n) as Hdraws.
    destruct (createObject props host images i n) as [o1 n1] eqn:Hfirst.
    cbn [snd] in Hdraws. subst n1.
    destruct (IH (S i) (objs ++ [o1]) (8 + n)) as (IHn & news & IHeq & IHlen & IHnth).
    split; [lia|]. exists (o1 :: news). split; [|split].
    + rewrite IHeq, <- app_assoc. reflexivity.
    + simpl. lia.
    + intros [|j] o Hnth; simpl in Hnth.
      * injection Hnth as <-.
        replace (i + 0) with i by lia. replace (n + 8 * 0) with n by lia.
        now rewrite Hfirst.
      * replace (i + S j) with (S i + j) by lia.
        replace (n + 8 * S j) with (8 + n + 8 * j) by lia.
        now apply IHnth.
Qed.

(** X13: [createObjects] is fulfilled exactly when every source of
    [userImages] loads; one source that does not load rejects the
    whole call, and an empty [userImages] always fulfils. *)
Theorem createObjects_fulfilled_iff (n : nat) :
  (exists objs n', createObjects props host n = (Fulfilled objs, n')) <->
  Forall (fun src => loads host src = true) (userImages props).
Proof.
  unfold createObjects. split.
  - intros (objs & n' & Hrun).
    destruct (Promise_all _) as [images|] eqn:Hall; [|discriminate Hrun].
    apply (Promise_all_fulfilled _ _ Hall).
  - intros Hloads. rewrite (Promise_all_loaded _ Hloads). unfold bind, ret.
    destruct (createLoop _ _ _ _ _ _ n) as [objs n']. eauto.
Qed.

(** X14: when [createObjects] is fulfilled it has created exactly
    [objectCount] objects, whatever [maxObjects] is, and has drawn
    eight random values per object. *)
Theorem createObjects_count (n n' : nat) (objs : list (Body T)) :
  createObjects props host n = (Fulfilled objs, n') ->
  List.length objs = objectCount props /\ n' = n + 8 * objectCount props.
Proof.
  unfold createObjects.
  destruct (Promise_all _) as [images|]; [|discriminate].
  unfold bind, ret.
  destruct (createLoop_spec images (objectCount props) 0 [] n)
    as (Hn & news & Heq & Hlen & _).
  destruct (createLoop _ _ _ _ _ _ n) as [l m]. cbn [fst snd] in *.
  intros Hrun. injection Hrun as <- <-. subst l. simpl. split; assumption.
Qed.

(** X15: the object created at index [i] has the sprite at index
    [i mod userImages.length] of [userImages], the sources being
    reused in turn when there are fewer of them than objects, and no
    sprite at all when [userImages] is empty; it has scale 1, mass 1
    and a reproduction chance of 0.01. *)
Theorem createObjects_round_robin (n n' i : nat) (objs : list (Body T)) (o : Body T) :
  createObjects props host n = (Fulfilled objs, n') ->
  nth_error objs i = Some o ->
  sprite o = nth_error (userImages props) (i mod List.length (userImages props))
  /\ fresh o.
Proof.
  unfold createObjects.
  destruct (Promise_all _) as [images|] eqn:Hall; [|discriminate].
  destruct (Promise_all_fulfilled _ _ Hall) as [-> _].
  unfold bind, ret.
  destruct (createLoop_spec (userImages props) (objectCount props) 0 [] n)
    as (_ & news & Heq & _ & Hnth).
  destruct (createLoop _ _ _ _ _ _ n) as [l m]. cbn [fst] in *.
  intros Hrun Hi. injection Hrun as <- _. subst l. simpl in Hi.
  rewrite (Hnth i o Hi). unfold fresh. simpl. repeat split; reflexivity.
Qed.

End Creation.

(** Witness of X14: three objects from 24 draws. *)
Lemma createObjects_count_witness :
  exists objs,
    createObjects Sample.props4 Sample.host 0 = (Fulfilled objs, 24) /\
    List.length objs = 3 /\ 24 = 0 + 8 * 3.
Proof.
  eexists. split.
  - vm_compute. reflexivity.
  - eapply (createObjects_count Sample.props4 Sample.host 0 24).
    vm_compute. reflexivity.
Defined.

(** Witness of X15: with two sprites the third object has the first
    one again. *)
Lemma createObjects_round_robin_witness :
  exists objs o,
    createObjects Scene.props_two_sprites Sample.host 0 = (Fulfilled objs, 24) /\
    nth_error objs 2 = Some o /\
    sprite o = Some "a.png"%string /\ fresh o.
Proof.
  eexists. eexists. split; [|split].
  - vm_compute. reflexivity.
  - vm_compute. reflexivity.
  - eapply (createObjects_round_robin Scene.props_two_sprites Sample.host 0 24 2).
    + vm_compute. reflexivity.
    + vm_compute. reflexivity.
Defined.

Section CreationReal.

Local Open Scope R_scope.

(** X16: for a draw in [[0, 1)] and [min <= max], in real arithmetic,
    [randomBetween min max] lies in [[min, max]], and strictly below
    [max] when [min < max]; it draws one value. *)
Theorem randomBetween_range (host : Host R) (lo hi : R) (n : nat) :
  0 <= random_values host n < 1 -> lo <= hi ->
  lo <= fst (randomBetween host lo hi n) <= hi /\
  (lo < hi -> fst (randomBetween host lo hi n) < hi) /\
  snd (randomBetween host lo hi n) = S n.
Proof.
  intros [Hr0 Hr1] Hle. unfold randomBetween, bind, Math_random, ret.
  cbn [fst snd num_sub num_mul num_add real_number].
  repeat split; try intros Hlt; nra.
Qed.

(** Witness of X16: a draw of 1/2 between 30 and 50. *)
Lemma randomBetween_range_witness :
  30 <= fst (randomBetween Scene.rhost 30 50 0%nat) <= 50 /\
  (30 < 50 -> fst (randomBetween Scene.rhost 30 50 0%nat) < 50) /\
  snd (randomBetween Scene.rhost 30 50 0%nat) = 1%nat.
Proof.
  apply (randomBetween_range Scene.rhost 30 50 0%nat); simpl; lra.
Defined.

(** X17: with every draw in [[0, 1)], a window of at least 100 by 100
    and a non-negative [angularVelocityFactor], in real arithmetic,
    every object [createObjects] creates lies at least 50 from each
    edge of the window, has width and height in [[30, 50)], velocity
    components in [[-5, 5)], an angle in [[0, 360)] and an angular
    velocity within the factor. *)
Theorem createObjects_ranges (props : Props R) (host : Host R)
  (n n' i : nat) (objs : list (Body R)) (o : Body R) :
  (forall k, 0 <= random_values host k < 1) ->
  100 <= innerWidth host -> 100 <= innerHeight host ->
  0 <= angularVelocityFactor props ->
  createObjects props host n = (Fulfilled objs, n') ->
  nth_error objs i = Some o ->
  50 <= x o <= innerWidth host - 50 /\
  50 <= y o <= innerHeight host - 50 /\
  30 <= width o < 50 /\ 30 <= height o < 50 /\
  -5 <= velocityX o < 5 /\ -5 <= velocityY o < 5 /\
  0 <= angle o < 360 /\
  - angularVelocityFactor props <= angularVelocity o
  <= angularVelocityFactor props.
Proof.
  intros Hdraw Hw Hh Hf. unfold createObjects.
  destruct (Promise_all _) as [images|]; [|discriminate].
  unfold bind, ret.
  destruct (createLoop_spec props host images (objectCount props) 0 [] n)
    as (_ & news & Heq & _ & Hnth).
  destruct (createLoop _ _ _ _ _ _ n) as [l m]. cbn [fst] in *.
  intros Hrun Hi. injection Hrun as <- _. subst l. simpl in Hi.
  rewrite (Hnth i o Hi).
  unfold createObject, randomBetween, bind, Math_random, ret.
  cbn [fst snd x y width height velocityX velocityY angle angularVelocity
       num_sub num_mul num_add num_neg real_number].
  set (d := (n + 8 * i)%nat).
  pose proof (Hdraw d) as H0. pose proof (Hdraw (S d)) as H1.
  pose proof (Hdraw (S (S d))) as H2. pose proof (Hdraw (S (S (S d)))) as H3.
  pose proof (Hdraw (S (S (S (S d))))) as H4.
  pose proof (Hdraw (S (S (S (S (S d)))))) as H5.
  pose proof (Hdraw (S (S (S (S (S (S d))))))) as H6.
  pose proof (Hdraw (S (S (S (S (S (S (S d)))))))) as H7.
  unfold Q2R; simpl.
  repeat split; nra.
Qed.

(** Witness of X17: the first of the five objects of the default
    props in an 800 by 600 window. *)
Lemma createObjects_ranges_witness :
  exists objs o,
    createObjects Sample.rprops Scene.rhost 0%nat = (Fulfilled objs, 40%nat) /\
    nth_error objs 0%nat = Some o /\
    50 <= x o <= 800 - 50 /\ 50 <= y o <= 600 - 50 /\
    30 <= width o < 50 /\ 30 <= height o < 50 /\
    -5 <= velocityX o < 5 /\ -5 <= velocityY o < 5 /\
    0 <= angle o < 360 /\
    - angularVelocityFactor Sample.rprops <= angularVelocity o
    <= angularVelocityFactor Sample.rprops.
Proof.
  eexists. eexists. split; [reflexivity|]. split; [reflexivity|].
  eapply (createObjects_ranges Sample.rprops Scene.rhost 0%nat 40%nat 0%nat).
  - intros k. simpl. lra.
  - simpl. lra.
  - simpl. lra.
  - unfold Sample.rprops, defaultProps. simpl. unfold Q2R. simpl. lra.
  - reflexivity.
  - reflexivity.
Defined.

End CreationReal.

(** ** Further properties on binary64 *)

Section IntegratorNaN.

Local Open Scope float_scope.

Lemma is_nan_eq (a : float) : is_nan a = true -> a = nan.
Proof.
  intros Hnan. apply Prim2SF_inj. rewrite Prim2SF_nan. now apply is_nan_spec.
Qed.

Lemma add_nan_l (a : float) : nan + a = nan.
Proof. apply Prim2SF_inj. rewrite add_spec, Prim2SF_nan. reflexivity. Qed.

Lemma clamp_nan (lo hi : float) :
  Binary64.min (Binary64.max lo nan) hi = nan.
Proof.
  unfold Binary64.max. change (is_nan nan) with true.
  rewrite orb_true_r. reflexivity.
Qed.

(** X19: on binary64 a NaN never leaves a body.  After [updateObject]
    a NaN velocity component is still NaN and has made the position on
    its axis NaN, and a NaN position stays NaN: neither the bounce nor
    the clamp brings the body back into the viewport. *)
Theorem nan_never_leaves
  (props : Props float) (obj : Body float) (viewportWidth viewportHeight : float) :
  let o := updateObject props obj viewportWidth viewportHeight in
  (is_nan (velocityX obj) = true ->
   is_nan (velocityX o) = true /\ is_nan (x o) = true) /\
  (is_nan (velocityY obj) = true ->
   is_nan (velocityY o) = true /\ is_nan (y o) = true) /\
  (is_nan (x obj) = true -> is_nan (x o) = true) /\
  (is_nan (y obj) = true -> is_nan (y o) = true).
Proof.
  intros o. subst o. unfold updateObject.
  cbn [x y velocityX velocityY num_sub num_mul num_add num_div num_neg
       num_lt Math_min Math_max float_number].
  split; [|split; [|split]]; intros Hnan; apply is_nan_eq in Hnan;
    rewrite Hnan;
    rewrite ?add_nan_l, ?mul_nan_l, ?add_nan_r, ?add_nan_l, ?clamp_nan.
  - split; [|reflexivity]. destruct (_ || _)%bool; reflexivity.
  - split; [|reflexivity]. destruct (_ || _)%bool; reflexivity.
  - reflexivity.
  - reflexivity.
Qed.

End IntegratorNaN.

(** Witness of X20: the two bodies with the same centre. *)
Lemma coincident_centres_poison_witness :
  let r := handleCollisionResponse Sample.stacked_a Sample.stacked_b in
  velocityX (fst r) = nan /\ velocityY (fst r) = nan /\
  velocityX (snd r) = nan /\ velocityY (snd r) = nan.
Proof.
  apply (coincident_centres_poison Sample.stacked_a Sample.stacked_b);
    reflexivity.
Defined.

(** Witness of X21: the body that leaves through the right wall. *)
Lemma updateObject_within_viewport_binary64_witness :
  let o := updateObject Sample.props4 (Sample.body 780 300 30 20 0)
                        800%float 600%float in
  (PrimFloat.leb 15 (x o) = true /\ PrimFloat.leb (x o) 785 = true) /\
  (PrimFloat.leb 15 (y o) = true /\ PrimFloat.leb (y o) 585 = true).
Proof.
  apply (updateObject_within_viewport_binary64
           Sample.props4 (Sample.body 780 300 30 20 0) 800%float 600%float);
    vm_compute; reflexivity.
Defined.

(** Witness of X10: the crowd of three, which grows by three. *)
Lemma animate_growth_bound_witness :
  exists committed,
    animate Sample.props4 Sample.host Sample.crowd 0 = (Returned committed, 15) /\
    3 <= List.length committed /\
    2 * (List.length committed - 3) <= 3 * (3 - 1).
Proof.
  eexists. split; [vm_compute; reflexivity|].
  apply (animate_growth_bound Sample.props4 Sample.host Sample.crowd _ 0 15).
  vm_compute. reflexivity.
Defined.

(** X18: mass stays positive: on binary64, when every body of the
    state has a mass above 0, so has every object of the array a run
    of [animate] hands to [setObjects], the spawned ones included. *)
Theorem animate_masses_positive (props : Props float) (host : Host float)
  (objects committed : list (Body float)) (n n' : nat) :
  animate props host objects n = (Returned committed, n') ->
  Forall (fun o => PrimFloat.ltb 0 (mass o) = true) objects ->
  Forall (fun o => PrimFloat.ltb 0 (mass o) = true) committed.
Proof.
  intros Hrun Hpos.
  destruct (animate_shape props host objects committed n n' Hrun)
    as (kept & born & -> & Hkept & Hborn).
  clear Hrun. apply Forall_app. split.
  - clear Hborn. induction Hkept as [|o o' l l' Hmake _ IH]; [constructor|].
    inversion Hpos as [|? ? Ho Hl]; subst.
    constructor; [|now apply IH].
    destruct Hmake as (_ & _ & _ & _ & Hmass & _). now rewrite Hmass.
  - eapply Forall_impl; [|exact Hborn].
    intros o (_ & Hmass & _). rewrite Hmass. reflexivity.
Qed.

(** Witness of X18: the crowd of three and its three children. *)
Lemma animate_masses_positive_witness :
  exists committed,
    animate Sample.props4 Sample.host Sample.crowd 0 = (Returned committed, 15) /\
    List.length committed = 6 /\
    Forall (fun o => PrimFloat.ltb 0 (mass o) = true) committed.
Proof.
  eexists. split; [vm_compute; reflexivity|]. split; [reflexivity|].
  apply (animate_masses_positive Sample.props4 Sample.host Sample.crowd _ 0 15).
  - vm_compute. reflexivity.
  - repeat constructor.
Defined.

(** Witness of X22: the crowd of three under a cap of 3. *)
Lemma animate_at_cap_witness :
  exists committed,
    animate Scene.props3 Sample.host Sample.crowd 0 = (Returned committed, 3) /\
    List.length committed = 3.
Proof.
  eexists. split; [vm_compute; reflexivity|].
  apply (animate_at_cap Scene.props3 Sample.host Sample.crowd _ 0 3).
  - simpl. lia.
  - vm_compute. reflexivity.
Defined.

(** Witness of X23: the child of two bodies of the crowd. *)
Lemma reproduceObject_child_witness :
  exists child,
    reproduceObject Sample.props4 Sample.host Sample.crowd
      (Sample.body 100 100 30 0 0) (Sample.body 105 100 30 0 0) 0
    = (Some child, 5) /\
    sprite child = Some "a.png"%string /\
    reproductionChance child = None /\
    List.length Sample.crowd < maxObjects Sample.props4.
Proof.
  eexists. split; [vm_compute; reflexivity|].
  pose proof (reproduceObject_child Sample.props4 Sample.host Sample.crowd
                (Sample.body 100 100 30 0 0) (Sample.body 105 100 30 0 0)
                _ 0 5 eq_refl) as Hchild.
  destruct Hchild as (_ & _ & _ & _ & Hsprite & _ & _ & Hchance & _ & Hcap).
  repeat split; assumption.
Defined.

(** ** The viewport on binary64 *)

Section ViewportBinary64.

Local Open Scope float_scope.





End ViewportBinary64.



(** Such a body comes out of a run of [animate] on a state of finite
    bodies: the first body reaches the centre of the second, the
    resolver leaves both with NaN velocities, and the step of the
    second one, which follows in the same run, makes its position
    NaN. *)
Example animate_commits_nan_position :
  exists committed o n',
    animate Scene.props_still Sample.host Scene.meeting 0 = (Returned committed, n') /\
    nth_error committed 1 = Some o /\
    PrimFloat.is_nan (x o) = true /\ PrimFloat.is_nan (y o) = true.
Proof.
  eexists. eexists. eexists. split; [vm_compute; reflexivity|].
  split; [vm_compute; reflexivity|]. split; reflexivity.
Qed.

(** The order of the bounds has to be taken as computed: at the last
    place of binary64 [width / 2] rounds up, and a body as wide as the
    viewport is put left of [width / 2]. *)
Example rounding_empties_viewport :
  let o := updateObject Sample.props4 Scene.speck 0x3p-1074%float 0x3p-1074%float in
  PrimFloat.leb (width Scene.speck) 0x3p-1074 = true /\
  PrimFloat.ltb (x o) (width Scene.speck / 2)%float = true.
Proof. vm_compute. split; reflexivity. Qed.
